(** * Occupancy planner: criteria resolution and availability decision

    A shallow embedding of the engine of [src/app.py]:
    - [find_marketing_zone_areas] (lines 142-158),
    - [check_desk_availability] (lines 160-204),
    - the criteria extraction and floor parsing of the query handler
      (lines 257-270),
    - the desk filtering steps together with [filter_log] (lines 279-309),
    - the availability loop and the top recommendation (lines 321-351).

    The datasets are what [json.load] returns, so every value below is a
    JSON value and every Python operation that can raise on a value of the
    wrong shape ([.get] on a non-dict, [>=] on a non-number, ...) returns a
    [result].

    Boundaries of the model.  Numbers are integers (the datasets hold integer
    percentages, floors and counts); floating point values are not
    represented.  A string is a sequence of code points below 256: the
    [ascii] value [n] stands for the character U+00[n], and [str.isdigit],
    [str.lower], [int] and [repr] are Python's on that range; characters
    from U+0100 on are not represented.  A dict is an association list read
    by first match; [json.load] never produces a repeated key.  The length
    limit CPython puts on the conversions between [int] and [str] is not
    modelled. *)

From Stdlib Require Import ZArith Lia Ascii String.
From stdpp Require Import base list strings pretty.

Open Scope string_scope.
Open Scope Z_scope.

(** ** Values and exceptions *)

#[warnings="-register-all"] Inductive json : Type :=
| JNull
| JBool (b : bool)
| JInt (n : Z)
| JStr (s : string)
| JList (l : list json)
| JObj (m : list (string * json)).

Inductive exn : Type := AttributeError | TypeError | ValueError.

Inductive result (A : Type) : Type :=
| Ok (a : A)
| Raise (e : exn).
Arguments Ok {A} a.
Arguments Raise {A} e.

Definition bind {A B : Type} (r : result A) (k : A -> result B) : result B :=
  match r with
  | Ok a => k a
  | Raise e => Raise e
  end.

Declare Scope py_scope.
Delimit Scope py_scope with py.
Notation "'let*' x := r 'in' k" := (bind r (fun x => k))
  (at level 10, x name, r at level 100, k at level 200) : py_scope.
Notation "'let*' ' p := r 'in' k" := (bind r (fun x => match x with p => k end))
  (at level 10, p strict pattern, r at level 100, k at level 200) : py_scope.
Open Scope py_scope.

(** ** Characters and strings *)

Module PyStr.

(** [c.isdecimal()]: the ten digits, the only characters [int] reads. *)
Definition isdecimal (c : ascii) : bool :=
  let n := N_of_ascii c in (48 <=? n)%N && (n <=? 57)%N.

(** Superscript two, three and one (U+00B2, U+00B3, U+00B9). *)
Definition issuperscript (c : ascii) : bool :=
  let n := N_of_ascii c in (n =? 178)%N || (n =? 179)%N || (n =? 185)%N.

(** [c.isdigit()]: the decimal digits and the superscript digits. *)
Definition isdigit (c : ascii) : bool := isdecimal c || issuperscript c.

(** [c.lower()]: A-Z, and the capital letters U+00C0 to U+00DE but for the
    multiplication sign U+00D7, move 32 code points up. *)
Definition lower_char (c : ascii) : ascii :=
  let n := N_of_ascii c in
  if (65 <=? n)%N && (n <=? 90)%N
     || (192 <=? n)%N && (n <=? 222)%N && negb (n =? 215)%N
  then ascii_of_N (n + 32) else c.

Fixpoint lower (s : string) : string :=
  match s with
  | EmptyString => EmptyString
  | String c s' => String (lower_char c) (lower s')
  end.

(** [filter(pred, s)] followed by [''.join]. *)
Fixpoint filter_chars (p : ascii -> bool) (s : string) : string :=
  match s with
  | EmptyString => EmptyString
  | String c s' => if p c then String c (filter_chars p s') else filter_chars p s'
  end.

Fixpoint all_chars (p : ascii -> bool) (s : string) : bool :=
  match s with
  | EmptyString => true
  | String c s' => p c && all_chars p s'
  end.

Fixpoint exists_char (p : ascii -> bool) (s : string) : bool :=
  match s with
  | EmptyString => false
  | String c s' => p c || exists_char p s'
  end.

(** [needle in hay] on two strings. *)
Fixpoint contains (needle hay : string) : bool :=
  String.prefix needle hay ||
  match hay with
  | EmptyString => false
  | String _ hay' => contains needle hay'
  end.

(** [sep.join(parts)]. *)
Fixpoint join (sep : string) (parts : list string) : string :=
  match parts with
  | [] => EmptyString
  | [p] => p
  | p :: rest => p ++ sep ++ join sep rest
  end.

Definition digit_value (c : ascii) : Z := Z.of_N (N_of_ascii c) - 48.

Fixpoint decimal_value (acc : Z) (s : string) : Z :=
  match s with
  | EmptyString => acc
  | String c s' => decimal_value (10 * acc + digit_value c) s'
  end.

(** [int(s)] on the strings it receives here, which hold characters that
    [isdigit] accepts: the empty string and a string with a superscript
    digit raise [ValueError]. *)
Definition int (s : string) : result Z :=
  match s with
  | EmptyString => Raise ValueError
  | _ => if all_chars isdecimal s then Ok (decimal_value 0 s) else Raise ValueError
  end.

Definition hex_digit (n : N) : ascii :=
  if (n <? 10)%N then ascii_of_N (48 + n) else ascii_of_N (87 + n).

Definition dquote : ascii := ascii_of_N 34.
Definition squote : ascii := ascii_of_N 39.
Definition backslash : ascii := ascii_of_N 92.

Definition repr_char (quote c : ascii) : string :=
  let n := N_of_ascii c in
  if Ascii.eqb c quote || Ascii.eqb c backslash then String backslash (String c EmptyString)
  else if (n =? 9)%N then String backslash "t"
  else if (n =? 10)%N then String backslash "n"
  else if (n =? 13)%N then String backslash "r"
  else if (n <? 32)%N || (n =? 127)%N
          || (128 <=? n)%N && (n <=? 160)%N || (n =? 173)%N then
    String backslash (String "x" (String (hex_digit (n / 16)) (String (hex_digit (n mod 16)) EmptyString)))
  else String c EmptyString.

Fixpoint repr_body (quote : ascii) (s : string) : string :=
  match s with
  | EmptyString => EmptyString
  | String c s' => repr_char quote c ++ repr_body quote s'
  end.

(** [repr(s)]: single quotes, unless the string holds a single quote and no
    double quote. *)
Definition repr (s : string) : string :=
  let quote :=
    if exists_char (Ascii.eqb squote) s && negb (exists_char (Ascii.eqb dquote) s)
    then dquote else squote in
  String quote (repr_body quote s ++ String quote EmptyString).

End PyStr.

(** ** Python operations on JSON values *)

Definition dict := list (string * json).

Fixpoint assoc (k : string) (m : dict) : option json :=
  match m with
  | [] => None
  | (k', v) :: m' => if String.eqb k k' then Some v else assoc k m'
  end.

(** [bool(v)]. *)
Definition truthy (v : json) : bool :=
  match v with
  | JNull => false
  | JBool b => b
  | JInt n => negb (n =? 0)
  | JStr s => negb (String.eqb s EmptyString)
  | JList l => match l with [] => false | _ => true end
  | JObj m => match m with [] => false | _ => true end
  end.

(** [a == b].  A bool compares as the integer 0 or 1; lists compare
    element by element; dicts have the same length and agree on every key. *)
Fixpoint py_eq (a b : json) : bool :=
  match a, b with
  | JNull, JNull => true
  | JBool x, JBool y => Z.b2z x =? Z.b2z y
  | JBool x, JInt y => Z.b2z x =? y
  | JInt x, JBool y => x =? Z.b2z y
  | JInt x, JInt y => x =? y
  | JStr s, JStr t => String.eqb s t
  | JList l, JList l' =>
      (fix go (l l' : list json) : bool :=
         match l, l' with
         | [], [] => true
         | x :: xs, y :: ys => py_eq x y && go xs ys
         | _, _ => false
         end) l l'
  | JObj m, JObj m' =>
      (length m =? length m')%nat &&
      (fix go (m : dict) : bool :=
         match m with
         | [] => true
         | (k, v) :: rest =>
             match assoc k m' with
             | Some v' => py_eq v v' && go rest
             | None => false
             end
         end) m
  | _, _ => false
  end.

(** [repr(v)] and [str(v)], the latter being what an f-string inserts. *)
Fixpoint py_repr (v : json) : string :=
  match v with
  | JNull => "None"
  | JBool true => "True"
  | JBool false => "False"
  | JInt n => pretty n
  | JStr s => PyStr.repr s
  | JList l => "[" ++ PyStr.join ", " (map py_repr l) ++ "]"
  | JObj m =>
      "{" ++ PyStr.join ", "
               (map (fun kv => PyStr.repr (fst kv) ++ ": " ++ py_repr (snd kv)) m) ++ "}"
  end.

Definition py_str (v : json) : string :=
  match v with
  | JStr s => s
  | _ => py_repr v
  end.

(** [v.get(key)] and [v.get(key, default)] for a literal key: only a dict
    has the method; on a dict the default stands for a missing key. *)
Definition dict_get (m : dict) (key : string) (default : json) : json :=
  match assoc key m with
  | Some x => x
  | None => default
  end.

Definition py_get_default (v : json) (key : string) (default : json) : result json :=
  match v with
  | JObj m => Ok (dict_get m key default)
  | _ => Raise AttributeError
  end.

Definition py_get (v : json) (key : string) : result json :=
  py_get_default v key JNull.

(** [v.get(key, default)] for a key that is itself a value.  The keys of a
    loaded dict are strings, so only a string key can be found; a list or a
    dict is unhashable. *)
Definition py_get_value (v key default : json) : result json :=
  match v with
  | JObj m =>
      match key with
      | JStr k => Ok (dict_get m k default)
      | JList _ | JObj _ => Raise TypeError
      | _ => Ok default
      end
  | _ => Raise AttributeError
  end.

(** What [for x in v] visits. *)
Definition py_iter (v : json) : result (list json) :=
  match v with
  | JList l => Ok l
  | JStr s => Ok (map (fun c => JStr (String c EmptyString)) (list_ascii_of_string s))
  | JObj m => Ok (map (fun kv => JStr (fst kv)) m)
  | _ => Raise TypeError
  end.

(** [x in v] for a string [x]. *)
Definition py_str_in (x : string) (v : json) : result bool :=
  match v with
  | JStr s => Ok (PyStr.contains x s)
  | JList l => Ok (existsb (fun y => py_eq y (JStr x)) l)
  | JObj m => Ok (match assoc x m with Some _ => true | None => false end)
  | _ => Raise TypeError
  end.

(** [x in l] for a list [l]. *)
Definition py_in_list (x : json) (l : list json) : bool :=
  existsb (fun y => py_eq y x) l.

(** [v >= n] for an integer [n]. *)
Definition py_ge (v : json) (n : Z) : result bool :=
  match v with
  | JInt x => Ok (n <=? x)
  | JBool b => Ok (n <=? Z.b2z b)
  | _ => Raise TypeError
  end.

(** [v.lower()]. *)
Definition py_lower (v : json) : result string :=
  match v with
  | JStr s => Ok (PyStr.lower s)
  | _ => Raise AttributeError
  end.

(** [sep.join(l)]: every item must be a string. *)
Fixpoint py_strings (l : list json) : result (list string) :=
  match l with
  | [] => Ok []
  | JStr s :: l' => let* r := py_strings l' in Ok (s :: r)
  | _ :: _ => Raise TypeError
  end.

Definition py_join (sep : string) (l : list json) : result string :=
  let* parts := py_strings l in Ok (PyStr.join sep parts).

(** A list comprehension [[d for d in l if cond(d)]] whose condition may
    raise. *)
Fixpoint comprehension (cond : json -> result bool) (l : list json) : result (list json) :=
  match l with
  | [] => Ok []
  | d :: l' =>
      let* keep := cond d in
      let* rest := comprehension cond l' in
      Ok (if keep then d :: rest else rest)
  end.

(** ** Spatial index: [find_marketing_zone_areas] *)

(** The first loop: the id of the first space named "Marketing Zone" of type
    "zone", [None] when the loop ends without a [break]. *)
Fixpoint find_zone_id (spaces : list json) : result json :=
  match spaces with
  | [] => Ok JNull
  | space :: rest =>
      let* name := py_get space "name" in
      if py_eq name (JStr "Marketing Zone") then
        let* ty := py_get space "type" in
        if py_eq ty (JStr "zone") then py_get space "id" else find_zone_id rest
      else find_zone_id rest
  end.

(** The second loop: the ids of the areas whose parent is the zone. *)
Fixpoint collect_area_ids (marketing_zone_id : json) (spaces : list json)
  : result (list json) :=
  match spaces with
  | [] => Ok []
  | space :: rest =>
      let* parent := py_get space "parent_id" in
      let* is_child :=
        if py_eq parent marketing_zone_id then
          let* ty := py_get space "type" in Ok (py_eq ty (JStr "area"))
        else Ok false in
      if is_child then
        let* area_id := py_get space "id" in
        let* more := collect_area_ids marketing_zone_id rest in
        Ok (area_id :: more)
      else collect_area_ids marketing_zone_id rest
  end.

Definition find_marketing_zone_areas (spaces_data : json) : result (list json) :=
  let* listed := py_get_default spaces_data "spaces" (JList []) in
  let* spaces := py_iter listed in
  let* marketing_zone_id := find_zone_id spaces in
  if negb (truthy marketing_zone_id) then Ok []
  else
    let* listed := py_get_default spaces_data "spaces" (JList []) in
    let* spaces := py_iter listed in
    collect_area_ids marketing_zone_id spaces.

(** ** Availability evaluator: [check_desk_availability] *)

(** Lines 172-173: the chained lookup of the afternoon forecast. *)
Definition afternoon_forecast (occupancy_data area_id : json) : result json :=
  let* by_area := py_get_default occupancy_data "forecast" (JObj []) in
  let* area := py_get_value by_area area_id (JObj []) in
  let* forecast_data := py_get_default area "next_day" (JObj []) in
  py_get forecast_data "afternoon".

(** Line 181: [next((p for p in ... if p.get("id") == "POL-005"), None)]. *)
Fixpoint find_capacity_policy (ps : list json) : result json :=
  match ps with
  | [] => Ok JNull
  | p :: rest =>
      let* id := py_get p "id" in
      if py_eq id (JStr "POL-005") then Ok p else find_capacity_policy rest
  end.

(** Lines 181-184. *)
Definition capacity_threshold (policies : json) : result Z :=
  let* listed := py_get_default policies "policies" (JList []) in
  let* ps := py_iter listed in
  let* capacity_policy := find_capacity_policy ps in
  let threshold := 80 in
  if truthy capacity_policy then
    let* description := py_get_default capacity_policy "description" (JStr EmptyString) in
    let* mentions := py_str_in "80%" description in
    Ok (if mentions then 80 else threshold)
  else Ok threshold.

Definition check_desk_availability (desk time_request occupancy_data policies : json)
  : result (bool * string) :=
  let* status := py_get desk "status" in
  if py_eq status (JStr "maintenance") then Ok (false, "Desk is under maintenance.")
  else if py_eq time_request (JStr "tomorrow afternoon") then
    let* area_id := py_get desk "vergesense_area_id" in
    let* forecast := afternoon_forecast occupancy_data area_id in
    match forecast with
    | JNull =>
        Ok (false, "No 'afternoon' forecast data available for Area "
                     ++ py_str area_id ++ " tomorrow.")
    | _ =>
        let* threshold := capacity_threshold policies in
        let* full := py_ge forecast threshold in
        if full then
          Ok (false, "Area " ++ py_str area_id ++ " forecasted occupancy ("
                       ++ py_str forecast ++ "%) meets/exceeds threshold ("
                       ++ pretty threshold ++ "%) for tomorrow afternoon.")
        else
          Ok (true, "Area " ++ py_str area_id ++ " forecast ("
                      ++ py_str forecast ++ "%) is below threshold ("
                      ++ pretty threshold
                      ++ "%) for tomorrow afternoon. Desk *may* be available.")
    end
  else if py_eq time_request (JStr "now") then
    let* status := py_get desk "status" in
    if py_eq status (JStr "available") then Ok (true, "Desk is currently available.")
    else
      let* status := py_get desk "status" in
      Ok (false, "Desk status is currently '" ++ py_str status ++ "'.")
  else
    Ok (false, "Availability check for '" ++ py_str time_request ++ "' not implemented.").

(** ** Criteria normalizer: lines 257-270 *)

Record criteria : Type := Criteria {
  req_desk_type : json;
  req_proximity : json;
  req_floor : option Z;
  req_time : json
}.

(** Lines 264-270.  The second component holds the [st.warning] messages. *)
Definition parse_floor (req_floor_str : json) : result (option Z * list string) :=
  if truthy req_floor_str then
    match PyStr.int (PyStr.filter_chars PyStr.isdigit (py_str req_floor_str)) with
    | Ok n => Ok (Some n, [])
    | Raise ValueError =>
        Ok (None, ["Could not parse floor '" ++ py_str req_floor_str ++ "' as a number."])
    | Raise e => Raise e
    end
  else Ok (None, []).

Definition normalize (structured_query : json) : result (criteria * list string) :=
  let* desk_type := py_get structured_query "desk_type" in
  let* proximity := py_get structured_query "location_proximity" in
  let* req_floor_str := py_get structured_query "floor" in
  let* time := py_get_default structured_query "time_request" (JStr "now") in
  let* '(floor, warnings) := parse_floor req_floor_str in
  Ok (Criteria desk_type proximity floor time, warnings).

(** ** Desk filter pipeline: lines 279-309 *)

(** The state the steps thread: [candidate_desks] and [filter_log]. *)
Definition filter_state : Type := list json * list string.

Definition count (desks : list json) : string := pretty (Z.of_nat (length desks)).

(** [filter_log.append(entry)]. *)
Definition append (filter_log : list string) (entry : string) : list string :=
  (filter_log ++ [entry])%list.

(** The entries of [filter_log] (lines 285, 290, 295, 302, 305, 307, 309). *)
Definition start_entry (desks : list json) : string :=
  "Starting with " ++ count desks ++ " total desks.".

Definition type_entry (desk_type : json) (kept : list json) : string :=
  "Filtered by type '" ++ py_str desk_type ++ "': " ++ count kept ++ " remaining.".

Definition floor_entry (n : Z) (kept : list json) : string :=
  "Filtered by floor '" ++ pretty n ++ "': " ++ count kept ++ " remaining.".

Definition proximity_entry (areas : string) (kept : list json) : string :=
  "Filtered by proximity to 'Marketing Team' (Areas: " ++ areas ++ "): "
    ++ count kept ++ " remaining.".

Definition no_areas_warning : string :=
  "Warning: Could not find areas associated with 'Marketing Zone'. Skipping proximity filter.".

Definition no_spaces_warning : string :=
  "Warning: Spaces data not loaded, cannot filter by proximity.".

Definition unsupported_note (proximity : json) : string :=
  "Note: Proximity filter for '" ++ py_str proximity
    ++ "' not specifically implemented in this prototype.".

Definition initial_state (desks : list json) : filter_state :=
  (desks, [start_entry desks]).

(** The conditions of the three list comprehensions (lines 289, 294, 304). *)
Definition type_matches (desk_type d : json) : result bool :=
  let* ty := py_get d "type" in Ok (py_eq ty desk_type).

Definition floor_matches (n : Z) (d : json) : result bool :=
  let* fl := py_get d "floor" in Ok (py_eq fl (JInt n)).

Definition area_listed (marketing_area_ids : list json) (d : json) : result bool :=
  let* a := py_get d "area_id" in Ok (py_in_list a marketing_area_ids).

Definition filter_by_type (desk_type : json) (st : filter_state) : result filter_state :=
  let '(candidate_desks, filter_log) := st in
  if truthy desk_type then
    let* kept := comprehension (type_matches desk_type) candidate_desks in
    Ok (kept, append filter_log (type_entry desk_type kept))
  else Ok st.

Definition filter_by_floor (floor : option Z) (st : filter_state) : result filter_state :=
  let '(candidate_desks, filter_log) := st in
  match floor with
  | Some n =>
      let* kept := comprehension (floor_matches n) candidate_desks in
      Ok (kept, append filter_log (floor_entry n kept))
  | None => Ok st
  end.

(** Line 298: [req_proximity and req_proximity.lower() == "marketing team"]. *)
Definition targets_marketing (proximity : json) : result bool :=
  if truthy proximity then
    let* lowered := py_lower proximity in Ok (String.eqb lowered "marketing team")
  else Ok false.

Definition filter_by_proximity (proximity spaces_data : json) (st : filter_state)
  : result filter_state :=
  let '(candidate_desks, filter_log) := st in
  let* marketing := targets_marketing proximity in
  if marketing then
    if truthy spaces_data then
      let* marketing_area_ids := find_marketing_zone_areas spaces_data in
      match marketing_area_ids with
      | [] =>
          Ok (candidate_desks, append filter_log no_areas_warning)
      | _ =>
          let* kept := comprehension (area_listed marketing_area_ids) candidate_desks in
          let* areas := py_join ", " marketing_area_ids in
          Ok (kept, append filter_log (proximity_entry areas kept))
      end
    else
      Ok (candidate_desks, append filter_log no_spaces_warning)
  else if truthy proximity then
    Ok (candidate_desks, append filter_log (unsupported_note proximity))
  else Ok st.

Definition filter_desks (desks : list json) (c : criteria) (spaces_data : json)
  : result filter_state :=
  let* typed := filter_by_type (req_desk_type c) (initial_state desks) in
  let* floored := filter_by_floor (req_floor c) typed in
  filter_by_proximity (req_proximity c) spaces_data floored.

(** Line 279: [desks_data.get("desks", [])]. *)
Definition all_desks (desks_data : json) : result (list json) :=
  let* listed := py_get_default desks_data "desks" (JList []) in
  py_iter listed.

(** ** The pipeline read as predicates

    What each step keeps, as a predicate on one desk: a condition that
    raises keeps nothing, a step that does not run keeps everything. *)

Definition holds (cond : json -> result bool) (d : json) : bool :=
  match cond d with
  | Ok b => b
  | Raise _ => false
  end.

Definition type_keeps (desk_type d : json) : bool :=
  if truthy desk_type then holds (type_matches desk_type) d else true.

Definition floor_keeps (floor : option Z) (d : json) : bool :=
  match floor with
  | Some n => holds (floor_matches n) d
  | None => true
  end.

Definition proximity_keeps (proximity spaces_data d : json) : bool :=
  match targets_marketing proximity with
  | Ok true =>
      if truthy spaces_data then
        match find_marketing_zone_areas spaces_data with
        | Ok (i :: ids) => holds (area_listed (i :: ids)) d
        | _ => true
        end
      else true
  | _ => true
  end.

(** [c2] sets the constraints of [c1] and possibly some that [c1] leaves
    absent. *)
Definition adds_constraints (c1 c2 : criteria) : Prop :=
  (truthy (req_desk_type c1) = false \/ req_desk_type c1 = req_desk_type c2)
  /\ (req_floor c1 = None \/ req_floor c1 = req_floor c2)
  /\ (truthy (req_proximity c1) = false \/ req_proximity c1 = req_proximity c2).

(** What the proximity step may append. *)
Definition proximity_logged (proximity : json) (kept : list json) (entry : string) : Prop :=
  (exists areas, entry = proximity_entry areas kept)
  \/ entry = no_areas_warning
  \/ entry = no_spaces_warning
  \/ entry = unsupported_note proximity.

(** ** The specification's two readings of floor parsing *)

Module Spec.







End Spec.

(** ** Shapes of the datasets

    Section 3 of the specification types the datasets; the predicates below
    say when a loaded value has that shape. *)

Definition hashable (v : json) : bool :=
  match v with
  | JList _ | JObj _ => false
  | _ => true
  end.

(** A policy is a dict whose description, when it has one, is a string. *)
Definition policy_shaped (p : json) : bool :=
  match p with
  | JObj m =>
      match assoc "description" m with
      | None | Some (JStr _) => true
      | Some _ => false
      end
  | _ => false
  end.

Definition policies_shaped (policies : json) : bool :=
  match policies with
  | JObj m =>
      match assoc "policies" m with
      | None => true
      | Some (JList ps) => forallb policy_shaped ps
      | Some _ => false
      end
  | _ => false
  end.

(** The forecast of an area is a dict whose [next_day], when it has one, is
    a dict. *)
Definition area_forecast_shaped (a : json) : bool :=
  match a with
  | JObj m =>
      match assoc "next_day" m with
      | None | Some (JObj _) => true
      | Some _ => false
      end
  | _ => false
  end.

Definition occupancy_shaped (occupancy_data : json) : bool :=
  match occupancy_data with
  | JObj m =>
      match assoc "forecast" m with
      | None => true
      | Some (JObj areas) => forallb (fun kv => area_forecast_shaped (snd kv)) areas
      | Some _ => false
      end
  | _ => false
  end.

Definition is_dict (v : json) : bool :=
  match v with
  | JObj _ => true
  | _ => false
  end.

(** A space is a dict with a string id. *)
Definition space_shaped (space : json) : bool :=
  match space with
  | JObj m =>
      match assoc "id" m with
      | Some (JStr _) => true
      | _ => false
      end
  | _ => false
  end.

Definition spaces_shaped (spaces_data : json) : bool :=
  match spaces_data with
  | JObj m =>
      match assoc "spaces" m with
      | None => true
      | Some (JList l) => forallb space_shaped l
      | Some _ => false
      end
  | _ => false
  end.

(** A proximity target is absent or a string. *)
Definition proximity_shaped (proximity : json) : bool :=
  match proximity with
  | JNull | JStr _ => true
  | _ => false
  end.

(** The space the index looks for. *)
Definition is_marketing_zone (space : dict) : Prop :=
  dict_get space "name" JNull = JStr "Marketing Zone"
  /\ dict_get space "type" JNull = JStr "zone".

(** ** Availability stage and recommendation: lines 321-351 *)

(** Line 333: one entry of [availability_log]. *)
Definition availability_entry (id : json) (is_available : bool) (reason : string) : string :=
  "Desk " ++ py_str id ++ ": Available = " ++ py_str (JBool is_available)
    ++ ". Reason: " ++ reason.

(** Lines 331-335: the loop over the candidates; it yields [available_desks]
    and [availability_log]. *)
Fixpoint check_candidates (candidate_desks : list json)
    (req_time occupancy_data policies_data : json) : result (list json * list string) :=
  match candidate_desks with
  | [] => Ok ([], [])
  | desk :: rest =>
      let* '(is_available, reason) :=
        check_desk_availability desk req_time occupancy_data policies_data in
      let* id := py_get desk "id" in
      let* '(available_desks, availability_log) :=
        check_candidates rest req_time occupancy_data policies_data in
      Ok (if is_available then desk :: available_desks else available_desks,
          availability_entry id is_available reason :: availability_log)
  end.

Definition is_none (v : json) : bool :=
  match v with
  | JNull => true
  | _ => false
  end.

(** Lines 323-335: nothing is checked when no candidate is left or when the
    occupancy or the policies dataset is [None]. *)
Definition availability_stage (candidate_desks : list json)
    (req_time occupancy_data policies_data : json) : result (list json * list string) :=
  match candidate_desks with
  | [] => Ok ([], [])
  | _ =>
      if is_none occupancy_data || is_none policies_data then Ok ([], [])
      else check_candidates candidate_desks req_time occupancy_data policies_data
  end.

(** Lines 343-351: the top recommendation is [available_desks[0]], when the
    list is not empty. *)
Definition top_recommendation (available_desks : list json) : option json :=
  match available_desks with
  | [] => None
  | desk :: _ => Some desk
  end.

(** ** Further predicates on the datasets *)

Definition is_str (v : json) : bool :=
  match v with
  | JStr _ => true
  | _ => false
  end.

(** The test of the second loop of [find_marketing_zone_areas] on a dict. *)
Definition is_area_of (marketing_zone_id : json) (space : dict) : bool :=
  py_eq (dict_get space "parent_id" JNull) marketing_zone_id
  && py_eq (dict_get space "type" JNull) (JStr "area").

(** The verdict of the evaluator read as a predicate on one desk. *)
Definition is_available_at (req_time occupancy_data policies_data desk : json) : bool :=
  match check_desk_availability desk req_time occupancy_data policies_data with
  | Ok (available, _) => available
  | Raise _ => false
  end.

Definition has_status (status : string) (desk : json) : bool :=
  match desk with
  | JObj m => py_eq (dict_get m "status" JNull) (JStr status)
  | _ => false
  end.

(** * Properties *)

(** ** Strings *)

Section Strings.

Lemma prefix_app (n b : string) : String.prefix n (n ++ b) = true.
Proof.
  induction n as [|c n IH]; simpl.
  - now destruct b.
  - destruct (ascii_dec c c) as [_|Hne]; [exact IH | now destruct Hne].
Qed.

Lemma contains_prefix (n h : string) : String.prefix n h = true -> PyStr.contains n h = true.
Proof. intros H. destruct h; simpl in *; rewrite H; reflexivity. Qed.

Lemma contains_skip (n a h : string) :
  PyStr.contains n h = true -> PyStr.contains n (a ++ h) = true.
Proof.
  intros H. induction a as [|c a IH]; simpl; [exact H|].
  rewrite IH. apply orb_true_r.
Qed.

(** A string occurs in every string built around it. *)
Lemma contains_infix (a n b : string) : PyStr.contains n (a ++ n ++ b) = true.
Proof. apply contains_skip, contains_prefix, prefix_app. Qed.

Lemma all_digits_filter (s : string) :
  PyStr.all_chars PyStr.isdigit (PyStr.filter_chars PyStr.isdigit s) = true.
Proof.
  induction s as [|c s IH]; simpl; [reflexivity|].
  destruct (PyStr.isdigit c) eqn:Hc; simpl; [rewrite Hc|]; exact IH.
Qed.


(** [int] reads a non-empty string of decimal digits and nothing else. *)
Lemma int_of_digits (s : string) :
  s <> EmptyString -> PyStr.all_chars PyStr.isdecimal s = true ->
  PyStr.int s = Ok (PyStr.decimal_value 0 s).
Proof.
  intros Hne Hs. unfold PyStr.int. rewrite Hs. destruct s; [now destruct Hne|reflexivity].
Qed.





End Strings.

(** ** Values *)

Lemma py_eq_str (v : json) (s : string) : py_eq v (JStr s) = true <-> v = JStr s.
Proof.
  destruct v; simpl; try (split; [discriminate|discriminate]).
  rewrite String.eqb_eq. split; [now intros ->|now intros [= ->]].
Qed.

Lemma py_eq_str_false (v : json) (s : string) : v <> JStr s -> py_eq v (JStr s) = false.
Proof.
  intros H. destruct (py_eq v (JStr s)) eqn:E; [|reflexivity].
  apply py_eq_str in E. contradiction.
Qed.

Lemma py_get_dict (m : dict) (key : string) : py_get (JObj m) key = Ok (dict_get m key JNull).
Proof. reflexivity. Qed.

Lemma bind_ok {A B : Type} (r : result A) (k : A -> result B) (b : B) :
  bind r k = Ok b -> exists a, r = Ok a /\ k a = Ok b.
Proof. destruct r as [a|e]; simpl; [eauto | discriminate]. Qed.

(** Splits a successful sequence of binds into its steps. *)
Ltac bind_inv H :=
  let a := fresh "a" in
  let Ha := fresh "Ha" in
  apply bind_ok in H; destruct H as (a & Ha & H).

(** ** The capacity threshold *)

Section Threshold.

Lemma find_capacity_policy_shaped (ps : list json) :
  forallb policy_shaped ps = true ->
  exists r, find_capacity_policy ps = Ok r /\ (r = JNull \/ policy_shaped r = true).
Proof.
  induction ps as [|p ps IH]; simpl; intros H.
  - eauto.
  - apply andb_true_iff in H as [Hp Hps].
    destruct p as [| | | | |m]; try discriminate. simpl.
    destruct (py_eq (dict_get m "id" JNull) (JStr "POL-005")); eauto.
Qed.

(** Whatever the policies hold, a threshold that is computed is 80. *)
Lemma capacity_threshold_80 (policies : json) (t : Z) :
  capacity_threshold policies = Ok t -> t = 80.
Proof.
  unfold capacity_threshold. intros H.
  bind_inv H. bind_inv H. bind_inv H.
  destruct (truthy a1).
  - bind_inv H. bind_inv H. injection H as <-. now destruct a3.
  - now injection H as <-.
Qed.

(** On policies of the documented shape the threshold is computed. *)
Lemma capacity_threshold_shaped (policies : json) :
  policies_shaped policies = true -> capacity_threshold policies = Ok 80.
Proof.
  intros H.
  assert (exists t, capacity_threshold policies = Ok t) as [t Ht].
  { unfold capacity_threshold.
    destruct policies as [| | | | |m]; try discriminate. simpl in *.
    unfold dict_get.
    assert (exists ps, (let* ps := py_iter
               match assoc "policies" m with Some x => x | None => JList [] end in Ok ps) = Ok ps
             /\ forallb policy_shaped ps = true) as (ps & Hps & Hall).
    { destruct (assoc "policies" m) as [[| | | |ps|]|]; try discriminate; simpl; eauto. }
    destruct (py_iter _) as [ps'|]; [|discriminate]. simpl in Hps.
    injection Hps as ->. simpl.
    destruct (find_capacity_policy_shaped ps Hall) as (r & -> & [->|Hr]); simpl; [eauto|].
    destruct r as [| | | | |pm]; try discriminate. simpl in *.
    destruct (match pm with [] => false | _ => true end); [|eauto].
    unfold dict_get.
    destruct (assoc "description" pm) as [[| | |d| |]|]; try discriminate; simpl; eauto. }
  rewrite Ht. f_equal. eapply capacity_threshold_80, Ht.
Qed.

End Threshold.

(** ** Availability evaluator *)

Section Availability.





(** C5.  With the time request "now" the evaluator returns for every desk,
    the desk is available exactly when its status is "available", and an
    unavailable verdict carries a reason in which the status occurs. *)
Theorem now_decision (d : dict) (occupancy_data policies : json) :
  exists (available : bool) (reason : string),
    check_desk_availability (JObj d) (JStr "now") occupancy_data policies
      = Ok (available, reason)
    /\ (available = true <-> dict_get d "status" JNull = JStr "available")
    /\ (available = false ->
          PyStr.contains (py_str (dict_get d "status" JNull)) reason = true).
Proof.
  unfold check_desk_availability. rewrite py_get_dict. simpl bind.
  destruct (py_eq (dict_get d "status" JNull) (JStr "maintenance")) eqn:Hm.
  - apply py_eq_str in Hm. rewrite Hm.
    exists false, "Desk is under maintenance.". repeat split; discriminate || reflexivity.
  - change (py_eq (JStr "now") (JStr "tomorrow afternoon")) with false.
    change (py_eq (JStr "now") (JStr "now")) with true. cbv iota.
    destruct (py_eq (dict_get d "status" JNull) (JStr "available")) eqn:Ha.
    + apply py_eq_str in Ha. exists true, "Desk is currently available.".
      repeat split; trivial; discriminate.
    + eexists false, _. split; [reflexivity|]. split.
      * split; [discriminate|]. intros Heq. apply py_eq_str in Heq. congruence.
      * intros _. apply contains_infix.
Qed.

(** C6.  A desk under maintenance is unavailable with the maintenance reason
    for every time request, occupancy dataset and policies value, whatever
    their shape: none of them is consulted. *)
Theorem maintenance_is_terminal (d : dict) (time_request occupancy_data policies : json) :
  dict_get d "status" JNull = JStr "maintenance" ->
  exists reason : string,
    check_desk_availability (JObj d) time_request occupancy_data policies
      = Ok (false, reason)
    /\ reason = "Desk is under maintenance."
    /\ PyStr.contains "under maintenance" reason = true.
Proof.
  intros Hstatus. exists "Desk is under maintenance.".
  split; [|split; reflexivity].
  unfold check_desk_availability. rewrite py_get_dict, Hstatus. reflexivity.
Qed.

Lemma maintenance_is_terminal_witness :
  let d := [("id", JStr "D-102"); ("status", JStr "maintenance")] in
  dict_get d "status" JNull = JStr "maintenance"
  /\ exists reason : string,
       check_desk_availability (JObj d) (JStr "tomorrow afternoon") (JInt 7) JNull
         = Ok (false, reason)
       /\ reason = "Desk is under maintenance."
       /\ PyStr.contains "under maintenance" reason = true.
Proof.
  intros d. split; [reflexivity|].
  apply (maintenance_is_terminal d (JStr "tomorrow afternoon") (JInt 7) JNull).
  reflexivity.
Defined.

(** C8.  For "tomorrow afternoon" the verdict is the same under any two
    policies values of the documented shape, for every desk and occupancy
    dataset; the threshold computed from such policies is 80.  For policies
    of any shape, a threshold that is computed is 80 and two evaluations
    that return agree. *)
Theorem decision_ignores_policies (desk occupancy_data p1 p2 : json) :
  policies_shaped p1 = true -> policies_shaped p2 = true ->
  check_desk_availability desk (JStr "tomorrow afternoon") occupancy_data p1
    = check_desk_availability desk (JStr "tomorrow afternoon") occupancy_data p2
  /\ capacity_threshold p1 = Ok 80
  /\ capacity_threshold p2 = Ok 80
  /\ (forall (q : json) (t : Z), capacity_threshold q = Ok t -> t = 80)
  /\ (forall (q1 q2 : json) (r1 r2 : bool * string),
        check_desk_availability desk (JStr "tomorrow afternoon") occupancy_data q1 = Ok r1 ->
        check_desk_availability desk (JStr "tomorrow afternoon") occupancy_data q2 = Ok r2 ->
        r1 = r2).
Proof.
  intros H1 H2.
  pose proof (capacity_threshold_shaped p1 H1) as T1.
  pose proof (capacity_threshold_shaped p2 H2) as T2.
  repeat split; trivial.
  - unfold check_desk_availability.
    destruct (py_get desk "status") as [status|]; [simpl|reflexivity].
    destruct (py_eq status (JStr "maintenance")); [reflexivity|].
    destruct (py_get desk "vergesense_area_id") as [area_id|]; [simpl|reflexivity].
    destruct (afternoon_forecast occupancy_data area_id) as [forecast|]; [simpl|reflexivity].
    rewrite T1, T2. reflexivity.
  - apply capacity_threshold_80.
  - intros q1 q2 r1 r2. unfold check_desk_availability.
    destruct (py_get desk "status") as [status|]; [simpl|discriminate].
    destruct (py_eq status (JStr "maintenance")); [congruence|].
    destruct (py_get desk "vergesense_area_id") as [area_id|]; [simpl|discriminate].
    destruct (afternoon_forecast occupancy_data area_id) as [forecast|]; [simpl|discriminate].
    destruct (capacity_threshold q1) as [t1|] eqn:E1;
      destruct (capacity_threshold q2) as [t2|] eqn:E2;
      try (destruct forecast; simpl; congruence).
    apply capacity_threshold_80 in E1, E2. subst. congruence.
Qed.

Lemma decision_ignores_policies_witness :
  let desk := JObj [("id", JStr "D-301"); ("status", JStr "available");
                    ("vergesense_area_id", JStr "VA-3")] in
  let occ := JObj [("forecast", JObj [("VA-3", JObj [("next_day",
               JObj [("afternoon", JInt 65)])])])] in
  let p1 := JObj [("policies", JList [JObj [("id", JStr "POL-005");
               ("description", JStr "Occupancy is capped at 50% per area")]])] in
  let p2 := JObj [("policies", JList [JObj [("id", JStr "POL-002")]])] in
  policies_shaped p1 = true /\ policies_shaped p2 = true
  /\ check_desk_availability desk (JStr "tomorrow afternoon") occ p1
     = check_desk_availability desk (JStr "tomorrow afternoon") occ p2.
Proof.
  intros desk occ p1 p2. split; [reflexivity|]. split; [reflexivity|].
  apply (decision_ignores_policies desk occ p1 p2); reflexivity.
Defined.

End Availability.

(** ** Spatial index *)

Section SpatialIndex.

Lemma is_marketing_zone_test (space : dict) :
  is_marketing_zone space <->
  py_eq (dict_get space "name" JNull) (JStr "Marketing Zone") = true
  /\ py_eq (dict_get space "type" JNull) (JStr "zone") = true.
Proof. unfold is_marketing_zone. now rewrite !py_eq_str. Qed.

(** The first loop skips the spaces that are not the zone. *)
Lemma find_zone_id_skip (before : list dict) (rest : list json) :
  (forall space, In space before -> ~ is_marketing_zone space) ->
  find_zone_id (map JObj before ++ rest) = find_zone_id rest.
Proof.
  induction before as [|space before IH]; intros Hnone; [reflexivity|].
  assert (~ is_marketing_zone space) as Hspace by (apply Hnone; now left).
  rewrite is_marketing_zone_test in Hspace.
  cbn [map app find_zone_id]. rewrite !py_get_dict. cbn [bind].
  rewrite IH by (intros s Hs; apply Hnone; now right).
  destruct (py_eq (dict_get space "name" JNull) (JStr "Marketing Zone")); [|reflexivity].
  destruct (py_eq (dict_get space "type" JNull) (JStr "zone")); [|reflexivity].
  now destruct Hspace.
Qed.

Lemma find_zone_id_none (spaces : list dict) :
  (forall space, In space spaces -> ~ is_marketing_zone space) ->
  find_zone_id (map JObj spaces) = Ok JNull.
Proof.
  intros Hnone. rewrite <- (app_nil_r (map JObj spaces)).
  now rewrite find_zone_id_skip.
Qed.

Lemma find_zone_id_first (before : list dict) (zone : dict) (rest : list json) :
  (forall space, In space before -> ~ is_marketing_zone space) ->
  is_marketing_zone zone ->
  find_zone_id (map JObj before ++ JObj zone :: rest) = Ok (dict_get zone "id" JNull).
Proof.
  intros Hnone Hzone. rewrite find_zone_id_skip by exact Hnone.
  apply is_marketing_zone_test in Hzone as [Hname Htype].
  cbn [find_zone_id]. rewrite !py_get_dict. cbn [bind]. now rewrite Hname, Htype.
Qed.

(** C7.  When the spaces listed are dicts none of which is a zone named
    "Marketing Zone", the index returns the empty list without raising, and
    a proximity step that targets the marketing team leaves the candidates
    as they are and appends one warning to the trace. *)
Theorem no_marketing_zone (m : dict) (spaces : list dict) (proximity : json)
    (candidate_desks : list json) (filter_log : list string) :
  dict_get m "spaces" (JList []) = JList (map JObj spaces) ->
  (forall space, In space spaces -> ~ is_marketing_zone space) ->
  find_marketing_zone_areas (JObj m) = Ok []
  /\ (targets_marketing proximity = Ok true ->
      filter_by_proximity proximity (JObj m) (candidate_desks, filter_log)
        = Ok (candidate_desks,
              append filter_log
                (if truthy (JObj m) then no_areas_warning else no_spaces_warning))).
Proof.
  intros Hlisted Hnone.
  assert (find_marketing_zone_areas (JObj m) = Ok []) as Hfind.
  { unfold find_marketing_zone_areas. cbn [py_get_default bind].
    rewrite Hlisted. cbn [py_iter bind].
    now rewrite find_zone_id_none. }
  split; [exact Hfind|].
  intros Htarget. unfold filter_by_proximity. rewrite Htarget. cbn [bind].
  destruct (truthy (JObj m)); [|reflexivity].
  now rewrite Hfind.
Qed.

Lemma no_marketing_zone_witness :
  let spaces := [[("id", JStr "Z-2"); ("name", JStr "Sales Zone"); ("type", JStr "zone")];
                 [("id", JStr "A-7"); ("name", JStr "Marketing Zone"); ("type", JStr "area");
                  ("parent_id", JStr "Z-2")]] in
  let m := [("spaces", JList (map JObj spaces))] in
  let desks := [JObj [("id", JStr "D-1"); ("area_id", JStr "A-7")]] in
  find_marketing_zone_areas (JObj m) = Ok []
  /\ filter_by_proximity (JStr "Marketing Team") (JObj m) (desks, [start_entry desks])
     = Ok (desks, [start_entry desks; no_areas_warning]).
Proof.
  intros spaces m desks.
  assert (forall space, In space spaces -> ~ is_marketing_zone space) as Hnone.
  { intros space [<-|[<-|[]]] [Hname Htype]; discriminate. }
  destruct (no_marketing_zone m spaces (JStr "Marketing Team") desks [start_entry desks]
              eq_refl Hnone) as [Hfind Hstep].
  split; [exact Hfind|]. apply Hstep. reflexivity.
Defined.

(** C10.  When the first space that is a zone named "Marketing Zone" has a
    falsy id (missing, [None], 0, the empty string), the index returns the
    empty list, whatever the spaces listed after it; there is such an input
    in which an area has that id as its parent. *)
Theorem falsy_zone_id_hides_areas :
  (forall (m : dict) (before : list dict) (zone : dict) (rest : list json),
      dict_get m "spaces" (JList []) = JList (map JObj before ++ JObj zone :: rest) ->
      (forall space, In space before -> ~ is_marketing_zone space) ->
      is_marketing_zone zone ->
      truthy (dict_get zone "id" JNull) = false ->
      find_marketing_zone_areas (JObj m) = Ok [])
  /\ (exists (zone : dict) (areas : list json),
        is_marketing_zone zone
        /\ truthy (dict_get zone "id" JNull) = false
        /\ collect_area_ids (dict_get zone "id" JNull) (JObj zone :: areas)
           = Ok [JStr "A-1"]
        /\ find_marketing_zone_areas (JObj [("spaces", JList (JObj zone :: areas))]) = Ok []).
Proof.
  split.
  - intros m before zone rest Hlisted Hnone Hzone Hfalsy.
    unfold find_marketing_zone_areas. cbn [py_get_default bind].
    rewrite Hlisted. cbn [py_iter bind].
    rewrite find_zone_id_first by assumption. cbn [bind].
    now rewrite Hfalsy.
  - exists [("id", JInt 0); ("name", JStr "Marketing Zone"); ("type", JStr "zone")],
           [JObj [("id", JStr "A-1"); ("type", JStr "area"); ("parent_id", JInt 0)]].
    repeat split.
Qed.

Lemma falsy_zone_id_hides_areas_witness :
  let zone := [("name", JStr "Marketing Zone"); ("type", JStr "zone"); ("id", JStr EmptyString)] in
  let area := JObj [("id", JStr "A-1"); ("type", JStr "area"); ("parent_id", JStr EmptyString)] in
  let m := [("spaces", JList [JObj zone; area])] in
  is_marketing_zone zone
  /\ truthy (dict_get zone "id" JNull) = false
  /\ find_marketing_zone_areas (JObj m) = Ok [].
Proof.
  intros zone area m.
  assert (is_marketing_zone zone) as Hzone by (split; reflexivity).
  split; [exact Hzone|]. split; [reflexivity|].
  apply (proj1 falsy_zone_id_hides_areas m [] zone [area]);
    [reflexivity | intros space [] | exact Hzone | reflexivity].
Defined.

End SpatialIndex.

(** ** Criteria normalizer *)

Section FloorParsing.





Lemma parse_floor_digits (v : json) :
  truthy v = true ->
  PyStr.filter_chars PyStr.isdigit (py_str v) <> EmptyString ->
  PyStr.all_chars PyStr.isdecimal (PyStr.filter_chars PyStr.isdigit (py_str v)) = true ->
  parse_floor v
  = Ok (Some (PyStr.decimal_value 0 (PyStr.filter_chars PyStr.isdigit (py_str v))), []).
Proof.
  intros Hv Hdigits Hdecimal. unfold parse_floor. rewrite Hv.
  now rewrite (int_of_digits _ Hdigits Hdecimal).
Qed.










End FloorParsing.

(** ** Desk filter pipeline *)

Section Pipeline.

Lemma comprehension_filter (cond : json -> result bool) (l kept : list json) :
  comprehension cond l = Ok kept -> kept = List.filter (holds cond) l.
Proof.
  revert kept. induction l as [|d l IH]; intros kept H; cbn [comprehension] in H.
  - now injection H as <-.
  - bind_inv H. bind_inv H. injection H as <-.
    cbn [List.filter]. unfold holds at 1. rewrite Ha. now rewrite (IH _ Ha0).
Qed.

Lemma filter_all (l : list json) : List.filter (fun _ => true) l = l.
Proof. induction l as [|d l IH]; [reflexivity|]. cbn [List.filter]. now rewrite IH. Qed.

Lemma filter_ext (p q : json -> bool) (l : list json) :
  (forall d, p d = q d) -> List.filter p l = List.filter q l.
Proof.
  intros Hpq. induction l as [|d l IH]; [reflexivity|].
  cbn [List.filter]. now rewrite Hpq, IH.
Qed.

Lemma filter_filter (p q : json -> bool) (l : list json) :
  List.filter q (List.filter p l) = List.filter (fun d => p d && q d) l.
Proof.
  induction l as [|d l IH]; [reflexivity|].
  cbn [List.filter]. destruct (p d); cbn [List.filter andb]; now rewrite IH.
Qed.

(** A stronger predicate on a shorter list keeps a subsequence. *)
Lemma filter_mono (p q : json -> bool) (l1 l2 : list json) :
  (forall d, p d = true -> q d = true) ->
  l1 `sublist_of` l2 -> List.filter p l1 `sublist_of` List.filter q l2.
Proof.
  intros Hpq Hsub. induction Hsub as [|d l1 l2 _ IH|d l1 l2 _ IH]; cbn [List.filter].
  - constructor.
  - destruct (p d) eqn:Hp.
    + rewrite (Hpq d Hp). now constructor.
    + destruct (q d); [now constructor | exact IH].
  - destruct (q d); [now constructor | exact IH].
Qed.

Lemma filter_sublist (p : json -> bool) (l : list json) : List.filter p l `sublist_of` l.
Proof.
  rewrite <- (filter_all l) at 2. apply filter_mono; [reflexivity|].
  induction l; now constructor.
Qed.

Lemma filter_by_type_spec (desk_type : json) (candidate_desks kept : list json)
    (filter_log log : list string) :
  filter_by_type desk_type (candidate_desks, filter_log) = Ok (kept, log) ->
  kept = List.filter (type_keeps desk_type) candidate_desks
  /\ log = if truthy desk_type then append filter_log (type_entry desk_type kept)
           else filter_log.
Proof.
  unfold filter_by_type, type_keeps. destruct (truthy desk_type); intros H.
  - bind_inv H. injection H as <- <-. split; [|reflexivity].
    now apply comprehension_filter.
  - injection H as <- <-. now rewrite filter_all.
Qed.

Lemma filter_by_floor_spec (floor : option Z) (candidate_desks kept : list json)
    (filter_log log : list string) :
  filter_by_floor floor (candidate_desks, filter_log) = Ok (kept, log) ->
  kept = List.filter (floor_keeps floor) candidate_desks
  /\ log = match floor with
           | Some n => append filter_log (floor_entry n kept)
           | None => filter_log
           end.
Proof.
  unfold filter_by_floor, floor_keeps. destruct floor as [n|]; intros H.
  - bind_inv H. injection H as <- <-. split; [|reflexivity].
    now apply comprehension_filter.
  - injection H as <- <-. now rewrite filter_all.
Qed.

Lemma filter_by_proximity_spec (proximity spaces_data : json)
    (candidate_desks kept : list json) (filter_log log : list string) :
  filter_by_proximity proximity spaces_data (candidate_desks, filter_log) = Ok (kept, log) ->
  kept = List.filter (proximity_keeps proximity spaces_data) candidate_desks
  /\ if truthy proximity
     then exists entry, log = append filter_log entry /\ proximity_logged proximity kept entry
     else log = filter_log.
Proof.
  unfold filter_by_proximity, proximity_keeps, proximity_logged, targets_marketing.
  destruct (truthy proximity); cbn [bind].
  - destruct (py_lower proximity) as [lowered|]; [cbn [bind]|discriminate].
    destruct (String.eqb lowered "marketing team").
    + destruct (truthy spaces_data).
      * destruct (find_marketing_zone_areas spaces_data) as [[|i ids]|]; cbn [bind];
          [| |discriminate]; intros H.
        -- injection H as <- <-. rewrite filter_all.
           split; [reflexivity|]. eexists. split; [reflexivity|]. right. now left.
        -- bind_inv H. bind_inv H. injection H as <- <-.
           split; [now apply comprehension_filter|].
           eexists. split; [reflexivity|]. left. now eexists.
      * intros H. injection H as <- <-. rewrite filter_all.
        split; [reflexivity|]. eexists. split; [reflexivity|]. right. right. now left.
    + intros H. injection H as <- <-. rewrite filter_all.
      split; [reflexivity|]. eexists. split; [reflexivity|]. now do 3 right.
  - intros H. injection H as <- <-. now rewrite filter_all.
Qed.

(** The candidates are the desks the three predicates keep, in the order of
    the input. *)
Lemma filter_desks_candidates (desks : list json) (c : criteria) (spaces_data : json)
    (candidates : list json) (log : list string) :
  filter_desks desks c spaces_data = Ok (candidates, log) ->
  candidates
  = List.filter (fun d => type_keeps (req_desk_type c) d && floor_keeps (req_floor c) d
                          && proximity_keeps (req_proximity c) spaces_data d) desks.
Proof.
  unfold filter_desks, initial_state. intros H.
  bind_inv H. destruct a as [typed log1]. bind_inv H. destruct a as [floored log2].
  apply filter_by_type_spec in Ha as [-> _].
  apply filter_by_floor_spec in Ha0 as [-> _].
  apply filter_by_proximity_spec in H as [-> _].
  rewrite !filter_filter. apply filter_ext. intros d. apply andb_assoc.
Qed.

(** *** The pipeline returns on datasets of the documented shape *)

Lemma comprehension_total (cond : json -> result bool) (l : list json) :
  forallb is_dict l = true ->
  (forall m : dict, exists b, cond (JObj m) = Ok b) ->
  exists kept, comprehension cond l = Ok kept.
Proof.
  intros Hl Hcond. induction l as [|d l IH]; cbn [comprehension]; [eauto|].
  cbn [forallb] in Hl. apply andb_true_iff in Hl as [Hd Hl].
  destruct d as [| | | | |m]; try discriminate.
  destruct (Hcond m) as [b ->]. destruct (IH Hl) as [kept ->]. cbn [bind]. eauto.
Qed.

Lemma forallb_filter (P p : json -> bool) (l : list json) :
  forallb P l = true -> forallb P (List.filter p l) = true.
Proof.
  induction l as [|d l IH]; [reflexivity|]. cbn [forallb List.filter].
  intros H. apply andb_true_iff in H as [Hd Hl].
  destruct (p d); cbn [forallb]; [rewrite Hd|]; now apply IH.
Qed.

Lemma find_zone_id_total (l : list json) :
  forallb space_shaped l = true -> exists z, find_zone_id l = Ok z.
Proof.
  induction l as [|space l IH]; cbn [find_zone_id forallb]; [eauto|].
  intros H. apply andb_true_iff in H as [Hs Hl].
  destruct space as [| | | | |m]; try discriminate.
  rewrite !py_get_dict. cbn [bind].
  destruct (py_eq _ _); [|now apply IH].
  destruct (py_eq _ _); [eauto|now apply IH].
Qed.

Lemma collect_area_ids_total (zone_id : json) (l : list json) :
  forallb space_shaped l = true ->
  exists ids names, collect_area_ids zone_id l = Ok ids /\ py_strings ids = Ok names.
Proof.
  induction l as [|space l IH]; cbn [collect_area_ids forallb]; [now exists [], []|].
  intros H. apply andb_true_iff in H as [Hs Hl].
  destruct (IH Hl) as (ids & names & Hids & Hnames).
  destruct space as [| | | | |m]; try discriminate.
  rewrite !py_get_dict. cbn [bind].
  assert (exists id, dict_get m "id" JNull = JStr id) as [id Hid].
  { unfold dict_get. cbn [space_shaped] in Hs.
    destruct (assoc "id" m) as [[| | |id| |]|]; try discriminate. eauto. }
  destruct (py_eq (dict_get m "parent_id" JNull) zone_id); cbn [bind].
  - destruct (py_eq (dict_get m "type" JNull) (JStr "area")).
    + rewrite Hids, Hid. cbn [bind]. exists (JStr id :: ids), (id :: names).
      split; [reflexivity|]. cbn [py_strings]. now rewrite Hnames.
    + eauto.
  - eauto.
Qed.

Lemma find_marketing_zone_areas_total (spaces_data : json) :
  spaces_shaped spaces_data = true ->
  exists ids names,
    find_marketing_zone_areas spaces_data = Ok ids /\ py_strings ids = Ok names.
Proof.
  intros H. destruct spaces_data as [| | | | |m]; try discriminate.
  assert (exists l, dict_get m "spaces" (JList []) = JList l
                    /\ forallb space_shaped l = true) as (l & Hl & Hshape).
  { unfold dict_get. cbn [spaces_shaped] in H.
    destruct (assoc "spaces" m) as [[| | | |l|]|]; try discriminate; eauto. }
  unfold find_marketing_zone_areas. cbn [py_get_default bind]. rewrite Hl.
  cbn [py_iter bind].
  destruct (find_zone_id_total l Hshape) as [z ->]. cbn [bind].
  destruct (truthy z); cbn [negb]; [|now exists [], []].
  now apply collect_area_ids_total.
Qed.

Lemma targets_marketing_total (proximity : json) :
  proximity_shaped proximity = true -> exists b, targets_marketing proximity = Ok b.
Proof.
  unfold targets_marketing. destruct proximity; try discriminate; intros _; cbn.
  - eauto.
  - destruct (negb _); eauto.
Qed.

Lemma filter_desks_total (desks : list json) (c : criteria) (spaces_data : json) :
  forallb is_dict desks = true ->
  proximity_shaped (req_proximity c) = true ->
  spaces_shaped spaces_data = true ->
  exists st, filter_desks desks c spaces_data = Ok st.
Proof.
  intros Hdesks Hprox Hspaces. unfold filter_desks, initial_state.
  assert (exists typed log, filter_by_type (req_desk_type c) (desks, [start_entry desks])
                            = Ok (typed, log)
                            /\ forallb is_dict typed = true) as (typed & log1 & -> & Htyped).
  { unfold filter_by_type. destruct (truthy (req_desk_type c)); [|eauto].
    destruct (comprehension_total (type_matches (req_desk_type c)) desks Hdesks)
      as [kept Hkept].
    { intros m. unfold type_matches. rewrite py_get_dict. cbn. eauto. }
    rewrite Hkept. cbn [bind]. do 2 eexists. split; [reflexivity|].
    rewrite (comprehension_filter _ _ _ Hkept). now apply forallb_filter. }
  cbn [bind].
  assert (exists floored log, filter_by_floor (req_floor c) (typed, log1) = Ok (floored, log)
                              /\ forallb is_dict floored = true)
    as (floored & log2 & -> & Hfloored).
  { unfold filter_by_floor. destruct (req_floor c) as [n|]; [|eauto].
    destruct (comprehension_total (floor_matches n) typed Htyped) as [kept Hkept].
    { intros m. unfold floor_matches. rewrite py_get_dict. cbn. eauto. }
    rewrite Hkept. cbn [bind]. do 2 eexists. split; [reflexivity|].
    rewrite (comprehension_filter _ _ _ Hkept). now apply forallb_filter. }
  cbn [bind]. unfold filter_by_proximity.
  destruct (targets_marketing_total _ Hprox) as [marketing ->]. cbn [bind].
  destruct marketing; [|destruct (truthy (req_proximity c)); eauto].
  destruct (truthy spaces_data); [|eauto].
  destruct (find_marketing_zone_areas_total _ Hspaces) as (ids & names & -> & Hnames).
  cbn [bind]. destruct ids as [|i ids]; [eauto|].
  destruct (comprehension_total (area_listed (i :: ids)) floored Hfloored) as [kept ->].
  { intros m. unfold area_listed. rewrite py_get_dict. cbn. eauto. }
  cbn [bind]. unfold py_join. rewrite Hnames. cbn [bind]. eauto.
Qed.

Lemma keeps_weaker (c1 c2 : criteria) (spaces_data d : json) :
  adds_constraints c1 c2 ->
  type_keeps (req_desk_type c2) d && floor_keeps (req_floor c2) d
    && proximity_keeps (req_proximity c2) spaces_data d = true ->
  type_keeps (req_desk_type c1) d && floor_keeps (req_floor c1) d
    && proximity_keeps (req_proximity c1) spaces_data d = true.
Proof.
  intros (Htype & Hfloor & Hprox) H.
  apply andb_true_iff in H as [H Hp]. apply andb_true_iff in H as [Ht Hf].
  repeat (apply andb_true_iff; split).
  - destruct Htype as [Habsent| ->]; [|exact Ht]. unfold type_keeps. now rewrite Habsent.
  - destruct Hfloor as [-> | ->]; [reflexivity|exact Hf].
  - destruct Hprox as [Habsent| ->]; [|exact Hp].
    unfold proximity_keeps, targets_marketing. now rewrite Habsent.
Qed.

(** C4.  The three steps run in sequence, each on the candidates the
    previous one left, and each leaves a subsequence of what it received;
    the candidates of the pipeline are a subsequence of the input desks,
    namely the desks the three predicates keep, in input order; criteria
    that add constraints to others give a subsequence of their candidates,
    hence no more of them; on datasets of the documented shape the pipeline
    returns. *)
Theorem pipeline_narrows (desks : list json) (c : criteria) (spaces_data : json) :
  (forall typed floored final : filter_state,
      filter_by_type (req_desk_type c) (initial_state desks) = Ok typed ->
      filter_by_floor (req_floor c) typed = Ok floored ->
      filter_by_proximity (req_proximity c) spaces_data floored = Ok final ->
      filter_desks desks c spaces_data = Ok final
      /\ fst final `sublist_of` fst floored
      /\ fst floored `sublist_of` fst typed
      /\ fst typed `sublist_of` desks)
  /\ (forall (candidates : list json) (log : list string),
        filter_desks desks c spaces_data = Ok (candidates, log) ->
        candidates `sublist_of` desks
        /\ candidates
           = List.filter (fun d => type_keeps (req_desk_type c) d
                                   && floor_keeps (req_floor c) d
                                   && proximity_keeps (req_proximity c) spaces_data d) desks)
  /\ (forall (c' : criteria) (candidates candidates' : list json) (log log' : list string),
        adds_constraints c c' ->
        filter_desks desks c spaces_data = Ok (candidates, log) ->
        filter_desks desks c' spaces_data = Ok (candidates', log') ->
        candidates' `sublist_of` candidates
        /\ (length candidates' <= length candidates)%nat)
  /\ (forallb is_dict desks = true ->
      proximity_shaped (req_proximity c) = true ->
      spaces_shaped spaces_data = true ->
      exists st, filter_desks desks c spaces_data = Ok st).
Proof.
  split; [|split; [|split]].
  - intros [typed log1] [floored log2] [final log3] Htype Hfloor Hprox.
    split; [unfold filter_desks; rewrite Htype; cbn [bind]; now rewrite Hfloor|].
    apply filter_by_type_spec in Htype as [-> _].
    apply filter_by_floor_spec in Hfloor as [-> _].
    apply filter_by_proximity_spec in Hprox as [-> _].
    cbn [fst]. repeat split; apply filter_sublist.
  - intros candidates log H. apply filter_desks_candidates in H.
    split; [|exact H]. rewrite H. apply filter_sublist.
  - intros c' candidates candidates' log log' Hadds H H'.
    apply filter_desks_candidates in H, H'.
    assert (candidates' `sublist_of` candidates) as Hsub.
    { rewrite H, H'. apply filter_mono; [|reflexivity].
      intros d. now apply keeps_weaker. }
    split; [exact Hsub|]. now apply sublist_length.
  - apply filter_desks_total.
Qed.

Lemma pipeline_narrows_witness :
  let standing n area := JObj [("type", JStr "standing"); ("floor", JInt n);
                               ("area_id", JStr area)] in
  let desks := [standing 3 "A-1"; JObj [("type", JStr "regular"); ("floor", JInt 3);
                                         ("area_id", JStr "A-1")];
                standing 2 "A-1"; standing 3 "A-9"; standing 3 "A-2"] in
  let spaces_data := JObj [("spaces", JList [
       JObj [("id", JStr "Z-1"); ("name", JStr "Marketing Zone"); ("type", JStr "zone")];
       JObj [("id", JStr "A-1"); ("type", JStr "area"); ("parent_id", JStr "Z-1")];
       JObj [("id", JStr "A-2"); ("type", JStr "area"); ("parent_id", JStr "Z-1")]])] in
  let c := Criteria (JStr "standing") JNull None (JStr "now") in
  let c' := Criteria (JStr "standing") (JStr "Marketing Team") (Some 3) (JStr "now") in
  adds_constraints c c'
  /\ (exists log, filter_desks desks c spaces_data
                  = Ok ([standing 3 "A-1"; standing 2 "A-1"; standing 3 "A-9";
                         standing 3 "A-2"], log))
  /\ (exists log, filter_desks desks c' spaces_data
                  = Ok ([standing 3 "A-1"; standing 3 "A-2"], log))
  /\ [standing 3 "A-1"; standing 3 "A-2"]
       `sublist_of` [standing 3 "A-1"; standing 2 "A-1"; standing 3 "A-9"; standing 3 "A-2"].
Proof.
  intros standing desks spaces_data c c'.
  assert (adds_constraints c c') as Hadds.
  { split; [now right|]. split; now left. }
  split; [exact Hadds|]. split; [eexists; reflexivity|]. split; [eexists; reflexivity|].
  destruct (pipeline_narrows desks c spaces_data) as (_ & _ & Hmono & _).
  eapply Hmono; [exact Hadds|reflexivity|reflexivity].
Defined.




End Pipeline.

(** * Further properties of the code *)

(** ** Availability evaluator: the other branches and the failures *)

Section AvailabilityEdges.

(** X1.  A time request other than the two the evaluator handles gives an
    unavailable verdict that names the request, whatever the occupancy and
    the policies are. *)
Theorem unsupported_time_request (d : dict) (time_request occupancy_data policies : json) :
  dict_get d "status" JNull <> JStr "maintenance" ->
  time_request <> JStr "tomorrow afternoon" ->
  time_request <> JStr "now" ->
  check_desk_availability (JObj d) time_request occupancy_data policies
  = Ok (false, "Availability check for '" ++ py_str time_request ++ "' not implemented.").
Proof.
  intros Hstatus Hta Hnow. unfold check_desk_availability.
  rewrite py_get_dict. cbn [bind].
  now rewrite !py_eq_str_false by assumption.
Qed.

Lemma unsupported_time_request_witness :
  check_desk_availability (JObj [("status", JStr "available")]) (JStr "next Monday morning")
    JNull (JInt 3)
  = Ok (false, "Availability check for 'next Monday morning' not implemented.").
Proof.
  apply (unsupported_time_request [("status", JStr "available")]
           (JStr "next Monday morning") JNull (JInt 3)); discriminate.
Defined.

(** X2.  The verdict reads the desk through its status and its
    [vergesense_area_id] only. *)
Theorem verdict_reads_two_fields (d1 d2 : dict) (time_request occupancy_data policies : json) :
  dict_get d1 "status" JNull = dict_get d2 "status" JNull ->
  dict_get d1 "vergesense_area_id" JNull = dict_get d2 "vergesense_area_id" JNull ->
  check_desk_availability (JObj d1) time_request occupancy_data policies
  = check_desk_availability (JObj d2) time_request occupancy_data policies.
Proof.
  intros Hstatus Harea. unfold check_desk_availability.
  rewrite !py_get_dict. cbn [bind]. now rewrite Hstatus, Harea.
Qed.

Lemma verdict_reads_two_fields_witness :
  let occ := JObj [("forecast", JObj [("VA-3", JObj [("next_day",
               JObj [("afternoon", JInt 40)])])])] in
  check_desk_availability
    (JObj [("id", JStr "D-1"); ("status", JStr "occupied"); ("vergesense_area_id", JStr "VA-3")])
    (JStr "tomorrow afternoon") occ (JObj [])
  = check_desk_availability
      (JObj [("vergesense_area_id", JStr "VA-3"); ("floor", JInt 9); ("status", JStr "occupied")])
      (JStr "tomorrow afternoon") occ (JObj []).
Proof.
  intros occ.
  apply (verdict_reads_two_fields
           [("id", JStr "D-1"); ("status", JStr "occupied"); ("vergesense_area_id", JStr "VA-3")]
           [("vergesense_area_id", JStr "VA-3"); ("floor", JInt 9); ("status", JStr "occupied")]);
    reflexivity.
Defined.

(** X3.  For "tomorrow afternoon" a desk is reported available only when the
    lookup finds a forecast and that forecast is below 80, for policies of
    any shape. *)
Theorem available_only_below_threshold (d : dict) (occupancy_data policies : json)
    (reason : string) :
  check_desk_availability (JObj d) (JStr "tomorrow afternoon") occupancy_data policies
    = Ok (true, reason) ->
  exists forecast,
    afternoon_forecast occupancy_data (dict_get d "vergesense_area_id" JNull) = Ok forecast
    /\ forecast <> JNull
    /\ py_ge forecast 80 = Ok false.
Proof.
  unfold check_desk_availability. rewrite !py_get_dict. cbn [bind].
  destruct (py_eq (dict_get d "status" JNull) (JStr "maintenance")); [discriminate|].
  change (py_eq (JStr "tomorrow afternoon") (JStr "tomorrow afternoon")) with true.
  cbn iota.
  destruct (afternoon_forecast _ _) as [forecast|]; [cbn [bind]|discriminate].
  intros H. exists forecast. split; [reflexivity|].
  destruct forecast; try discriminate;
    (split; [discriminate|]);
    destruct (capacity_threshold policies) as [t|] eqn:Ht; try discriminate;
    apply capacity_threshold_80 in Ht; subst t; cbn [bind] in H;
    try discriminate;
    destruct (py_ge _ 80) as [[]|]; try discriminate; reflexivity.
Qed.

Lemma available_only_below_threshold_witness :
  let d := [("status", JStr "occupied"); ("vergesense_area_id", JStr "VA-3")] in
  let occ := JObj [("forecast", JObj [("VA-3", JObj [("next_day",
               JObj [("afternoon", JInt 79)])])])] in
  exists forecast,
    afternoon_forecast occ (dict_get d "vergesense_area_id" JNull) = Ok forecast
    /\ forecast <> JNull
    /\ py_ge forecast 80 = Ok false.
Proof.
  intros d occ.
  apply (available_only_below_threshold d occ (JObj [])
           "Area VA-3 forecast (79%) is below threshold (80%) for tomorrow afternoon. Desk *may* be available.").
  reflexivity.
Defined.

Lemma check_tomorrow_afternoon (d : dict) (occupancy_data policies : json) :
  dict_get d "status" JNull <> JStr "maintenance" ->
  check_desk_availability (JObj d) (JStr "tomorrow afternoon") occupancy_data policies
  = let area_id := dict_get d "vergesense_area_id" JNull in
    let* forecast := afternoon_forecast occupancy_data area_id in
    match forecast with
    | JNull =>
        Ok (false, "No 'afternoon' forecast data available for Area "
                     ++ py_str area_id ++ " tomorrow.")
    | _ =>
        let* threshold := capacity_threshold policies in
        let* full := py_ge forecast threshold in
        if full then
          Ok (false, "Area " ++ py_str area_id ++ " forecasted occupancy ("
                       ++ py_str forecast ++ "%) meets/exceeds threshold ("
                       ++ pretty threshold ++ "%) for tomorrow afternoon.")
        else
          Ok (true, "Area " ++ py_str area_id ++ " forecast ("
                      ++ py_str forecast ++ "%) is below threshold ("
                      ++ pretty threshold
                      ++ "%) for tomorrow afternoon. Desk *may* be available.")
    end.
Proof.
  intros Hstatus. unfold check_desk_availability. rewrite py_get_dict. cbn [bind].
  now rewrite (py_eq_str_false _ _ Hstatus).
Qed.

(** X4.  A forecast entry that is a string, a list or a dict makes the comparison
    with the threshold raise [TypeError], once the threshold is computed. *)
Theorem non_numeric_forecast_raises (d : dict) (occupancy_data policies forecast : json) :
  dict_get d "status" JNull <> JStr "maintenance" ->
  afternoon_forecast occupancy_data (dict_get d "vergesense_area_id" JNull) = Ok forecast ->
  is_none forecast = false ->
  match forecast with JInt _ | JBool _ => false | _ => true end = true ->
  policies_shaped policies = true ->
  check_desk_availability (JObj d) (JStr "tomorrow afternoon") occupancy_data policies
  = Raise TypeError.
Proof.
  intros Hstatus Hforecast Hsome Hkind Hpol.
  rewrite (check_tomorrow_afternoon _ _ _ Hstatus). cbn zeta. rewrite Hforecast. cbn [bind].
  rewrite (capacity_threshold_shaped _ Hpol).
  destruct forecast; try discriminate; reflexivity.
Qed.

Lemma non_numeric_forecast_raises_witness :
  check_desk_availability
    (JObj [("status", JStr "available"); ("vergesense_area_id", JStr "VA-3")])
    (JStr "tomorrow afternoon")
    (JObj [("forecast", JObj [("VA-3", JObj [("next_day",
       JObj [("afternoon", JStr "65")])])])])
    (JObj [])
  = Raise TypeError.
Proof.
  apply (non_numeric_forecast_raises
           [("status", JStr "available"); ("vergesense_area_id", JStr "VA-3")]
           _ (JObj []) (JStr "65")); try reflexivity. discriminate.
Defined.

(** X5.  A forecast entry that is a JSON boolean compares as 0 or 1, so the desk
    is reported available and the reason shows [True] or [False]. *)
Theorem boolean_forecast_is_available (d : dict) (occupancy_data policies : json) (b : bool) :
  dict_get d "status" JNull <> JStr "maintenance" ->
  afternoon_forecast occupancy_data (dict_get d "vergesense_area_id" JNull) = Ok (JBool b) ->
  policies_shaped policies = true ->
  check_desk_availability (JObj d) (JStr "tomorrow afternoon") occupancy_data policies
  = Ok (true, "Area " ++ py_str (dict_get d "vergesense_area_id" JNull) ++ " forecast ("
                ++ (if b then "True" else "False")
                ++ "%) is below threshold (80%) for tomorrow afternoon. Desk *may* be available.").
Proof.
  intros Hstatus Hforecast Hpol.
  rewrite (check_tomorrow_afternoon _ _ _ Hstatus). cbn zeta. rewrite Hforecast. cbn [bind].
  rewrite (capacity_threshold_shaped _ Hpol). now destruct b.
Qed.

Lemma boolean_forecast_is_available_witness :
  check_desk_availability
    (JObj [("status", JStr "available"); ("vergesense_area_id", JStr "VA-3")])
    (JStr "tomorrow afternoon")
    (JObj [("forecast", JObj [("VA-3", JObj [("next_day",
       JObj [("afternoon", JBool true)])])])])
    (JObj [])
  = Ok (true, "Area VA-3 forecast (True%) is below threshold (80%) for tomorrow afternoon. Desk *may* be available.").
Proof.
  apply (boolean_forecast_is_available
           [("status", JStr "available"); ("vergesense_area_id", JStr "VA-3")]
           _ (JObj []) true); try reflexivity. discriminate.
Defined.

Lemma forecast_of_non_string_key (occupancy_data area_id : json) :
  occupancy_shaped occupancy_data = true ->
  hashable area_id = true -> is_str area_id = false ->
  afternoon_forecast occupancy_data area_id = Ok JNull.
Proof.
  intros Hocc Hkey Hstr. unfold afternoon_forecast.
  destruct occupancy_data as [| | | | |m]; try discriminate. cbn in *.
  unfold dict_get at 1.
  destruct (assoc "forecast" m) as [[| | | | |areas]|]; try discriminate;
    destruct area_id; try discriminate; reflexivity.
Qed.

(** X6.  A desk whose [vergesense_area_id] is missing, [None] or a number finds
    no forecast: it is unavailable and the reason names the identifier as
    Python prints it. *)
Theorem missing_area_id_is_unavailable (d : dict) (occupancy_data policies : json) :
  dict_get d "status" JNull <> JStr "maintenance" ->
  occupancy_shaped occupancy_data = true ->
  hashable (dict_get d "vergesense_area_id" JNull) = true ->
  is_str (dict_get d "vergesense_area_id" JNull) = false ->
  check_desk_availability (JObj d) (JStr "tomorrow afternoon") occupancy_data policies
  = Ok (false, "No 'afternoon' forecast data available for Area "
                 ++ py_str (dict_get d "vergesense_area_id" JNull) ++ " tomorrow.").
Proof.
  intros Hstatus Hocc Hkey Hstr.
  rewrite (check_tomorrow_afternoon _ _ _ Hstatus). cbn zeta.
  now rewrite (forecast_of_non_string_key _ _ Hocc Hkey Hstr).
Qed.

Lemma missing_area_id_is_unavailable_witness :
  check_desk_availability (JObj [("id", JStr "D-9"); ("status", JStr "available")])
    (JStr "tomorrow afternoon")
    (JObj [("forecast", JObj [("None", JObj [("next_day",
       JObj [("afternoon", JInt 10)])])])])
    JNull
  = Ok (false, "No 'afternoon' forecast data available for Area None tomorrow.").
Proof.
  apply (missing_area_id_is_unavailable [("id", JStr "D-9"); ("status", JStr "available")]);
    try reflexivity. discriminate.
Defined.

(** X7.  A [vergesense_area_id] that is a list or a dict cannot be a dict key:
    the lookup raises [TypeError] as soon as the occupancy dataset is a dict
    whose forecast, if any, is a dict. *)
Theorem unhashable_area_id_raises (d m : dict) (policies : json) :
  dict_get d "status" JNull <> JStr "maintenance" ->
  hashable (dict_get d "vergesense_area_id" JNull) = false ->
  is_dict (dict_get m "forecast" (JObj [])) = true ->
  check_desk_availability (JObj d) (JStr "tomorrow afternoon") (JObj m) policies
  = Raise TypeError.
Proof.
  intros Hstatus Hkey Hforecast.
  rewrite (check_tomorrow_afternoon _ _ _ Hstatus). cbn zeta.
  unfold afternoon_forecast. cbn [py_get_default bind].
  destruct (dict_get m "forecast" (JObj [])); try discriminate.
  destruct (dict_get d "vergesense_area_id" JNull); try discriminate; reflexivity.
Qed.

Lemma unhashable_area_id_raises_witness :
  check_desk_availability
    (JObj [("status", JStr "available"); ("vergesense_area_id", JList [JStr "VA-3"])])
    (JStr "tomorrow afternoon") (JObj []) JNull
  = Raise TypeError.
Proof.
  apply (unhashable_area_id_raises
           [("status", JStr "available"); ("vergesense_area_id", JList [JStr "VA-3"])] []);
    try reflexivity. discriminate.
Defined.

Lemma find_capacity_policy_first (before : list dict) (p : dict) (rest : list json) :
  (forall q, In q before -> dict_get q "id" JNull <> JStr "POL-005") ->
  dict_get p "id" JNull = JStr "POL-005" ->
  find_capacity_policy (map JObj before ++ JObj p :: rest) = Ok (JObj p).
Proof.
  intros Hbefore Hp. induction before as [|q before IH]; cbn [map app find_capacity_policy].
  - rewrite py_get_dict. cbn [bind]. rewrite Hp. reflexivity.
  - rewrite py_get_dict. cbn [bind].
    rewrite py_eq_str_false by (apply Hbefore; now left).
    apply IH. intros q' Hq'. apply Hbefore. now right.
Qed.

Lemma find_capacity_policy_non_dict (before : list dict) (x : json) (rest : list json) :
  (forall q, In q before -> dict_get q "id" JNull <> JStr "POL-005") ->
  is_dict x = false ->
  find_capacity_policy (map JObj before ++ x :: rest) = Raise AttributeError.
Proof.
  intros Hbefore Hx. induction before as [|q before IH]; cbn [map app find_capacity_policy].
  - destruct x; try discriminate; reflexivity.
  - rewrite py_get_dict. cbn [bind].
    rewrite py_eq_str_false by (apply Hbefore; now left).
    apply IH. intros q' Hq'. apply Hbefore. now right.
Qed.

(** X8.  The scan for POL-005 stops at the first policy with that id: the
    entries after it are never inspected, whatever they are, while an entry
    before it that is not a dict makes the scan raise [AttributeError]. *)
Theorem policy_scan_stops_at_first_match (m : dict) (before : list dict) (rest : list json) :
  (forall q, In q before -> dict_get q "id" JNull <> JStr "POL-005") ->
  (forall p : dict,
      dict_get m "policies" (JList []) = JList (map JObj before ++ JObj p :: rest) ->
      dict_get p "id" JNull = JStr "POL-005" ->
      is_str (dict_get p "description" (JStr EmptyString)) = true ->
      capacity_threshold (JObj m) = Ok 80)
  /\ (forall x : json,
        dict_get m "policies" (JList []) = JList (map JObj before ++ x :: rest) ->
        is_dict x = false ->
        capacity_threshold (JObj m) = Raise AttributeError).
Proof.
  intros Hbefore. split.
  - intros p Hlisted Hid Hdescr. unfold capacity_threshold.
    cbn [py_get_default bind]. rewrite Hlisted. cbn [py_iter bind].
    rewrite (find_capacity_policy_first _ _ _ Hbefore Hid). cbn [bind].
    destruct (truthy (JObj p)); [|reflexivity].
    cbn [py_get_default bind].
    destruct (dict_get p "description" (JStr EmptyString)); try discriminate.
    cbn [py_str_in bind]. now destruct (PyStr.contains "80%" s).
  - intros x Hlisted Hx. unfold capacity_threshold.
    cbn [py_get_default bind]. rewrite Hlisted. cbn [py_iter bind].
    now rewrite (find_capacity_policy_non_dict _ _ _ Hbefore Hx).
Qed.

Lemma policy_scan_stops_at_first_match_witness :
  capacity_threshold
    (JObj [("policies", JList [JObj [("id", JStr "POL-002")];
                               JObj [("id", JStr "POL-005"); ("description", JStr "at most 50%")];
                               JInt 7; JNull])])
  = Ok 80
  /\ capacity_threshold
       (JObj [("policies", JList [JObj [("id", JStr "POL-002")]; JInt 7;
                                  JObj [("id", JStr "POL-005")]])])
     = Raise AttributeError.
Proof.
  assert (forall q, In q [[("id", JStr "POL-002")]] -> dict_get q "id" JNull <> JStr "POL-005")
    as Hbefore by (intros q [<-|[]]; discriminate).
  split.
  - apply (proj1 (policy_scan_stops_at_first_match _ [[("id", JStr "POL-002")]]
                    [JInt 7; JNull] Hbefore)
             [("id", JStr "POL-005"); ("description", JStr "at most 50%")]); reflexivity.
  - apply (proj2 (policy_scan_stops_at_first_match _ [[("id", JStr "POL-002")]]
                    [JObj [("id", JStr "POL-005")]] Hbefore) (JInt 7)); reflexivity.
Defined.

End AvailabilityEdges.

(** ** Spatial index: the zone that is found *)

Section SpatialIndexEdges.

Lemma collect_area_ids_dicts (marketing_zone_id : json) (spaces : list dict) :
  collect_area_ids marketing_zone_id (map JObj spaces)
  = Ok (map (fun space => dict_get space "id" JNull)
          (List.filter (is_area_of marketing_zone_id) spaces)).
Proof.
  induction spaces as [|space spaces IH]; [reflexivity|].
  cbn [map collect_area_ids List.filter]. rewrite !py_get_dict. cbn [bind].
  unfold is_area_of at 1.
  destruct (py_eq (dict_get space "parent_id" JNull) marketing_zone_id); cbn [bind andb].
  - destruct (py_eq (dict_get space "type" JNull) (JStr "area")).
    + rewrite IH. reflexivity.
    + exact IH.
  - exact IH.
Qed.

(** X9.  When the first zone named "Marketing Zone" has a truthy id, the index
    returns, in input order, the ids of exactly the spaces of type "area"
    whose parent is that id; a later zone of the same name plays no part. *)
Theorem zone_areas_are_its_children (m : dict) (before : list dict) (zone : dict)
    (rest : list dict) :
  dict_get m "spaces" (JList []) = JList (map JObj (before ++ zone :: rest)) ->
  (forall space, In space before -> ~ is_marketing_zone space) ->
  is_marketing_zone zone ->
  truthy (dict_get zone "id" JNull) = true ->
  find_marketing_zone_areas (JObj m)
  = Ok (map (fun space => dict_get space "id" JNull)
          (List.filter (is_area_of (dict_get zone "id" JNull)) (before ++ zone :: rest))).
Proof.
  intros Hlisted Hnone Hzone Hid.
  unfold find_marketing_zone_areas. cbn [py_get_default bind].
  rewrite Hlisted. cbn [py_iter bind].
  rewrite map_app at 1. cbn [map].
  rewrite (find_zone_id_first before zone (map JObj rest) Hnone Hzone). cbn [bind].
  rewrite Hid. cbn [negb]. apply collect_area_ids_dicts.
Qed.

Lemma zone_areas_are_its_children_witness :
  let zone := [("id", JStr "Z-1"); ("name", JStr "Marketing Zone"); ("type", JStr "zone")] in
  let rest := [[("id", JStr "A-1"); ("type", JStr "area"); ("parent_id", JStr "Z-1")];
               [("id", JStr "Z-9"); ("name", JStr "Marketing Zone"); ("type", JStr "zone")];
               [("id", JStr "A-5"); ("type", JStr "area"); ("parent_id", JStr "Z-9")];
               [("id", JStr "R-1"); ("type", JStr "room"); ("parent_id", JStr "Z-1")];
               [("id", JStr "A-2"); ("type", JStr "area"); ("parent_id", JStr "Z-1")]] in
  find_marketing_zone_areas (JObj [("spaces", JList (map JObj (zone :: rest)))])
  = Ok [JStr "A-1"; JStr "A-2"].
Proof.
  intros zone rest.
  apply (zone_areas_are_its_children [("spaces", JList (map JObj (zone :: rest)))]
           [] zone rest);
    [reflexivity | intros space [] | split; reflexivity | reflexivity].
Defined.

Lemma find_zone_id_non_dict (before : list dict) (x : json) (rest : list json) :
  (forall space, In space before -> ~ is_marketing_zone space) ->
  is_dict x = false ->
  find_zone_id (map JObj before ++ x :: rest) = Raise AttributeError.
Proof.
  intros Hnone Hx. rewrite find_zone_id_skip by exact Hnone.
  destruct x; try discriminate; reflexivity.
Qed.

(** X10.  A listed space that is not a dict and is met before any marketing zone
    makes the index raise [AttributeError]. *)
Theorem non_dict_space_raises (m : dict) (before : list dict) (x : json) (rest : list json) :
  dict_get m "spaces" (JList []) = JList (map JObj before ++ x :: rest) ->
  (forall space, In space before -> ~ is_marketing_zone space) ->
  is_dict x = false ->
  find_marketing_zone_areas (JObj m) = Raise AttributeError.
Proof.
  intros Hlisted Hnone Hx.
  unfold find_marketing_zone_areas. cbn [py_get_default bind].
  rewrite Hlisted. cbn [py_iter bind].
  now rewrite (find_zone_id_non_dict before x rest Hnone Hx).
Qed.

Lemma non_dict_space_raises_witness :
  find_marketing_zone_areas
    (JObj [("spaces", JList [JObj [("id", JStr "Z-2"); ("name", JStr "Sales Zone")];
                             JStr "Marketing Zone";
                             JObj [("id", JStr "Z-1"); ("name", JStr "Marketing Zone");
                                   ("type", JStr "zone")]])])
  = Raise AttributeError.
Proof.
  apply (non_dict_space_raises _ [[("id", JStr "Z-2"); ("name", JStr "Sales Zone")]]
           (JStr "Marketing Zone")
           [JObj [("id", JStr "Z-1"); ("name", JStr "Marketing Zone"); ("type", JStr "zone")]]);
    [reflexivity | intros space [<-|[]] [Hname _]; discriminate | reflexivity].
Defined.

End SpatialIndexEdges.

(** ** Desk filter pipeline: composition and failures *)

Section PipelineEdges.

Lemma comprehension_conditions (cond : json -> result bool) (l kept : list json) :
  comprehension cond l = Ok kept -> forall d, In d l -> exists b, cond d = Ok b.
Proof.
  revert kept. induction l as [|x l IH]; intros kept H d Hd; [destruct Hd|].
  cbn [comprehension] in H. bind_inv H. bind_inv H.
  destruct Hd as [<-|Hd]; [eauto | eapply IH; eauto].
Qed.

Lemma comprehension_of_conditions (cond : json -> result bool) (l : list json) :
  (forall d, In d l -> exists b, cond d = Ok b) ->
  comprehension cond l = Ok (List.filter (holds cond) l).
Proof.
  induction l as [|x l IH]; intros Hl; [reflexivity|].
  cbn [comprehension List.filter]. unfold holds at 1.
  destruct (Hl x (or_introl eq_refl)) as [b ->]. cbn [bind].
  rewrite IH by (intros d Hd; apply Hl; now right). reflexivity.
Qed.

Lemma filter_kept (p : json -> bool) (l : list json) :
  (forall d, In d l -> p d = true) -> List.filter p l = l.
Proof.
  induction l as [|x l IH]; intros Hl; [reflexivity|].
  cbn [List.filter]. rewrite (Hl x (or_introl eq_refl)).
  now rewrite IH by (intros d Hd; apply Hl; now right).
Qed.

(** A comprehension that succeeded on a list succeeds on any list made of
    desks it kept, and keeps them all. *)
Lemma comprehension_again (cond : json -> result bool) (l kept l' : list json) :
  comprehension cond l = Ok kept ->
  (forall d, In d l' -> In d kept) ->
  comprehension cond l' = Ok l'.
Proof.
  intros H Hsub. pose proof (comprehension_conditions _ _ _ H) as Hok.
  apply comprehension_filter in H. subst kept.
  rewrite comprehension_of_conditions.
  - f_equal. apply filter_kept. intros d Hd.
    apply Hsub, List.filter_In in Hd. tauto.
  - intros d Hd. apply Hok. apply Hsub, List.filter_In in Hd. tauto.
Qed.

Lemma filter_by_type_again (desk_type : json) (l kept l' : list json)
    (log log1 log' : list string) :
  filter_by_type desk_type (l, log) = Ok (kept, log1) ->
  (forall d, In d l' -> In d kept) ->
  exists log'', filter_by_type desk_type (l', log') = Ok (l', log'').
Proof.
  unfold filter_by_type. destruct (truthy desk_type); intros H Hsub; [|eauto].
  bind_inv H. injection H as -> _.
  rewrite (comprehension_again _ _ _ _ Ha Hsub). cbn [bind]. eauto.
Qed.

Lemma filter_by_floor_again (floor : option Z) (l kept l' : list json)
    (log log1 log' : list string) :
  filter_by_floor floor (l, log) = Ok (kept, log1) ->
  (forall d, In d l' -> In d kept) ->
  exists log'', filter_by_floor floor (l', log') = Ok (l', log'').
Proof.
  unfold filter_by_floor. destruct floor as [n|]; intros H Hsub; [|eauto].
  bind_inv H. injection H as -> _.
  rewrite (comprehension_again _ _ _ _ Ha Hsub). cbn [bind]. eauto.
Qed.

Lemma filter_by_proximity_again (proximity spaces_data : json) (l kept l' : list json)
    (log log1 log' : list string) :
  filter_by_proximity proximity spaces_data (l, log) = Ok (kept, log1) ->
  (forall d, In d l' -> In d kept) ->
  exists log'', filter_by_proximity proximity spaces_data (l', log') = Ok (l', log'').
Proof.
  unfold filter_by_proximity.
  destruct (targets_marketing proximity) as [[]|]; cbn [bind]; [| |discriminate].
  - destruct (truthy spaces_data); [|eauto].
    destruct (find_marketing_zone_areas spaces_data) as [[|i ids]|]; cbn [bind];
      [eauto| |discriminate].
    intros H Hsub. bind_inv H. bind_inv H. injection H as -> _.
    rewrite (comprehension_again _ _ _ _ Ha Hsub). cbn [bind].
    rewrite Ha0. cbn [bind]. eauto.
  - destruct (truthy proximity); eauto.
Qed.

(** X11.  The pipeline is idempotent: run again on its own candidates, with the
    same criteria and spaces, it returns and keeps every candidate. *)
Theorem pipeline_idempotent (desks : list json) (c : criteria) (spaces_data : json)
    (candidates : list json) (log : list string) :
  filter_desks desks c spaces_data = Ok (candidates, log) ->
  exists log', filter_desks candidates c spaces_data = Ok (candidates, log').
Proof.
  unfold filter_desks, initial_state. intros H.
  bind_inv H. destruct a as [typed log1]. bind_inv H. destruct a as [floored log2].
  assert (forall d, In d candidates -> In d floored) as Hfloored.
  { apply filter_by_proximity_spec in H as [-> _].
    intros d Hd. apply List.filter_In in Hd. tauto. }
  assert (forall d, In d floored -> In d typed) as Htyped.
  { pose proof Ha0 as Hf. apply filter_by_floor_spec in Hf as [-> _].
    intros d Hd. apply List.filter_In in Hd. tauto. }
  destruct (filter_by_type_again _ _ _ candidates _ _ [start_entry candidates] Ha)
    as [l1 ->]; [auto|]. cbn [bind].
  destruct (filter_by_floor_again _ _ _ candidates _ _ l1 Ha0) as [l2 ->]; [auto|].
  cbn [bind].
  apply (filter_by_proximity_again _ _ _ _ candidates _ _ l2 H). auto.
Qed.

Lemma pipeline_idempotent_witness :
  let desks := [JObj [("type", JStr "standing"); ("floor", JInt 3)];
                JObj [("type", JStr "regular"); ("floor", JInt 3)];
                JObj [("type", JStr "standing"); ("floor", JInt 2)]] in
  let c := Criteria (JStr "standing") (JStr "window") (Some 3) (JStr "now") in
  exists log',
    filter_desks [JObj [("type", JStr "standing"); ("floor", JInt 3)]] c JNull
    = Ok ([JObj [("type", JStr "standing"); ("floor", JInt 3)]], log').
Proof.
  intros desks c.
  eapply (pipeline_idempotent desks c JNull). reflexivity.
Defined.

Lemma type_matches_dict (desk_type d : json) (b : bool) :
  type_matches desk_type d = Ok b -> is_dict d = true.
Proof. destruct d; try discriminate; reflexivity. Qed.

Lemma floor_matches_dict (n : Z) (d : json) (b : bool) :
  floor_matches n d = Ok b -> is_dict d = true.
Proof. destruct d; try discriminate; reflexivity. Qed.

Lemma floor_matches_of_dict (n : Z) (d : json) :
  is_dict d = true -> exists b, floor_matches n d = Ok b.
Proof. destruct d; try discriminate. intros _. unfold floor_matches. cbn. eauto. Qed.

Lemma type_matches_of_dict (desk_type d : json) :
  is_dict d = true -> exists b, type_matches desk_type d = Ok b.
Proof. destruct d; try discriminate. intros _. unfold type_matches. cbn. eauto. Qed.

(** X12.  The type step and the floor step commute: when the type step followed
    by the floor step returns, the floor step followed by the type step
    returns the same candidates. *)
Theorem type_and_floor_steps_commute (desk_type : json) (floor : option Z)
    (desks typed both : list json) (log log1 log2 : list string) :
  filter_by_type desk_type (desks, log) = Ok (typed, log1) ->
  filter_by_floor floor (typed, log1) = Ok (both, log2) ->
  exists floored log1' log2',
    filter_by_floor floor (desks, log) = Ok (floored, log1')
    /\ filter_by_type desk_type (floored, log1') = Ok (both, log2').
Proof.
  intros Htype Hfloor.
  pose proof (filter_by_type_spec _ _ _ _ _ Htype) as [Htyped _].
  pose proof (filter_by_floor_spec _ _ _ _ _ Hfloor) as [Hboth _].
  unfold filter_by_type, filter_by_floor in *.
  destruct (truthy desk_type) eqn:Ht.
  - bind_inv Htype. injection Htype as -> _.
    pose proof (comprehension_conditions _ _ _ Ha) as Hdicts.
    destruct floor as [n|].
    + rewrite (comprehension_of_conditions (floor_matches n) desks).
      2:{ intros d Hd. destruct (Hdicts d Hd) as [b Hb].
          apply floor_matches_of_dict. eapply type_matches_dict, Hb. }
      cbn [bind]. do 3 eexists. split; [reflexivity|].
      rewrite (comprehension_of_conditions (type_matches desk_type)).
      2:{ intros d Hd. apply Hdicts. apply List.filter_In in Hd. tauto. }
      cbn [bind].
      assert (List.filter (holds (type_matches desk_type))
                (List.filter (holds (floor_matches n)) desks) = both) as ->;
        [|reflexivity].
      rewrite Hboth, Htyped. unfold type_keeps, floor_keeps. rewrite Ht.
      rewrite !filter_filter. apply filter_ext. intros d. apply andb_comm.
    + do 3 eexists. split; [reflexivity|]. rewrite Ha. cbn [bind].
      injection Hfloor as <- _. reflexivity.
  - injection Htype as <- <-. destruct floor as [n|].
    + bind_inv Hfloor. injection Hfloor as <- _. rewrite Ha. cbn [bind].
      do 3 eexists. split; reflexivity.
    + injection Hfloor as <- _. do 3 eexists. split; reflexivity.
Qed.

Lemma type_and_floor_steps_commute_witness :
  let desks := [JObj [("type", JStr "standing"); ("floor", JInt 3)];
                JObj [("type", JStr "regular"); ("floor", JInt 3)];
                JObj [("type", JStr "standing"); ("floor", JInt 2)]] in
  exists floored log1' log2',
    filter_by_floor (Some 3) (desks, []) = Ok (floored, log1')
    /\ filter_by_type (JStr "standing") (floored, log1')
       = Ok ([JObj [("type", JStr "standing"); ("floor", JInt 3)]], log2').
Proof.
  intros desks.
  eapply (type_and_floor_steps_commute (JStr "standing") (Some 3) desks); reflexivity.
Defined.

(** X13.  A dict desk is among the candidates exactly when it is among the input
    desks, has the requested type when one is requested, is on the parsed
    floor when there is one, and lies in one of the marketing areas when the
    proximity step found some. *)
Theorem candidates_meet_the_criteria (desks : list json) (c : criteria) (spaces_data : json)
    (candidates : list json) (log : list string) :
  filter_desks desks c spaces_data = Ok (candidates, log) ->
  forall m : dict,
    In (JObj m) candidates <->
    In (JObj m) desks
    /\ (truthy (req_desk_type c) = true ->
        py_eq (dict_get m "type" JNull) (req_desk_type c) = true)
    /\ (forall n, req_floor c = Some n -> py_eq (dict_get m "floor" JNull) (JInt n) = true)
    /\ (forall i ids,
          targets_marketing (req_proximity c) = Ok true ->
          truthy spaces_data = true ->
          find_marketing_zone_areas spaces_data = Ok (i :: ids) ->
          py_in_list (dict_get m "area_id" JNull) (i :: ids) = true).
Proof.
  intros H m. apply filter_desks_candidates in H. subst candidates.
  rewrite List.filter_In, !andb_true_iff.
  assert (type_keeps (req_desk_type c) (JObj m) = true <->
          (truthy (req_desk_type c) = true ->
           py_eq (dict_get m "type" JNull) (req_desk_type c) = true)) as ->.
  { unfold type_keeps. destruct (truthy (req_desk_type c)).
    - unfold holds, type_matches. rewrite py_get_dict. cbn [bind]. tauto.
    - split; [discriminate | reflexivity]. }
  assert (floor_keeps (req_floor c) (JObj m) = true <->
          (forall n, req_floor c = Some n ->
                     py_eq (dict_get m "floor" JNull) (JInt n) = true)) as ->.
  { unfold floor_keeps. destruct (req_floor c) as [n|].
    - unfold holds, floor_matches. rewrite py_get_dict. cbn [bind].
      split; [now intros Hn n' [= <-] | auto].
    - split; [discriminate | reflexivity]. }
  assert (proximity_keeps (req_proximity c) spaces_data (JObj m) = true <->
          (forall i ids,
              targets_marketing (req_proximity c) = Ok true ->
              truthy spaces_data = true ->
              find_marketing_zone_areas spaces_data = Ok (i :: ids) ->
              py_in_list (dict_get m "area_id" JNull) (i :: ids) = true)) as ->.
  { unfold proximity_keeps.
    destruct (targets_marketing (req_proximity c)) as [[]|];
      [|split; [discriminate | reflexivity]..].
    destruct (truthy spaces_data); [|split; [discriminate | reflexivity]].
    destruct (find_marketing_zone_areas spaces_data) as [[|i ids]|];
      [split; [discriminate | reflexivity]| |split; [discriminate | reflexivity]].
    unfold holds, area_listed. rewrite py_get_dict. cbn [bind].
    split; [now intros Hin i' ids' _ _ [= <- <-] | auto]. }
  tauto.
Qed.

Lemma candidates_meet_the_criteria_witness :
  let desk := [("type", JStr "standing"); ("floor", JInt 3); ("area_id", JStr "A-1")] in
  let desks := [JObj [("type", JStr "regular"); ("floor", JInt 3)]; JObj desk] in
  let c := Criteria (JStr "standing") JNull (Some 3) (JStr "now") in
  let log := [start_entry desks; type_entry (JStr "standing") [JObj desk];
              floor_entry 3 [JObj desk]] in
  filter_desks desks c JNull = Ok ([JObj desk], log)
  /\ py_eq (dict_get desk "floor" JNull) (JInt 3) = true.
Proof.
  intros desk desks c log. split; [reflexivity|].
  destruct (proj1 (candidates_meet_the_criteria desks c JNull [JObj desk] log eq_refl desk))
    as (_ & _ & Hfloor & _); [now left|].
  now apply Hfloor.
Defined.

Lemma py_strings_non_string (ids : list json) :
  forallb is_str ids = false -> py_strings ids = Raise TypeError.
Proof.
  induction ids as [|i ids IH]; [discriminate|]. cbn [forallb py_strings].
  destruct i; try reflexivity. cbn [is_str andb]. intros H. now rewrite (IH H).
Qed.

(** X14.  When one of the marketing area ids is not a string (a numeric id, a
    missing id), the proximity step raises [TypeError] while it writes its
    trace entry, although the desks themselves can be filtered. *)
Theorem non_string_area_ids_raise (proximity spaces_data : json) (ids candidate_desks : list json)
    (filter_log : list string) :
  targets_marketing proximity = Ok true ->
  truthy spaces_data = true ->
  find_marketing_zone_areas spaces_data = Ok ids ->
  forallb is_str ids = false ->
  forallb is_dict candidate_desks = true ->
  filter_by_proximity proximity spaces_data (candidate_desks, filter_log) = Raise TypeError.
Proof.
  intros Htarget Hspaces Hids Hstr Hdesks. unfold filter_by_proximity.
  rewrite Htarget. cbn [bind]. rewrite Hspaces, Hids. cbn [bind].
  destruct ids as [|i ids]; [discriminate|].
  destruct (comprehension_total (area_listed (i :: ids)) candidate_desks Hdesks)
    as [kept ->].
  { intros m. unfold area_listed. rewrite py_get_dict. cbn. eauto. }
  cbn [bind]. unfold py_join. now rewrite (py_strings_non_string _ Hstr).
Qed.

Lemma non_string_area_ids_raise_witness :
  filter_by_proximity (JStr "marketing team")
    (JObj [("spaces", JList [
       JObj [("id", JInt 1); ("name", JStr "Marketing Zone"); ("type", JStr "zone")];
       JObj [("id", JInt 11); ("type", JStr "area"); ("parent_id", JInt 1)]])])
    ([JObj [("id", JStr "D-1"); ("area_id", JInt 11)]], [])
  = Raise TypeError.
Proof.
  apply (non_string_area_ids_raise _ _ [JInt 11]); reflexivity.
Defined.

(** X15.  A proximity target that is a non-empty string other than "marketing
    team", in any letter case, leaves the candidates as they are and appends
    the not-implemented note, whatever the spaces dataset holds; a truthy
    target that is not a string raises [AttributeError]. *)
Theorem other_proximity_targets (proximity spaces_data : json) (candidate_desks : list json)
    (filter_log : list string) :
  truthy proximity = true ->
  (forall s, proximity = JStr s -> PyStr.lower s <> "marketing team" ->
     filter_by_proximity proximity spaces_data (candidate_desks, filter_log)
     = Ok (candidate_desks, append filter_log (unsupported_note proximity)))
  /\ (is_str proximity = false ->
      filter_by_proximity proximity spaces_data (candidate_desks, filter_log)
      = Raise AttributeError).
Proof.
  intros Htruthy. unfold filter_by_proximity, targets_marketing. rewrite Htruthy. split.
  - intros s -> Hother. cbn [py_lower bind].
    apply String.eqb_neq in Hother. now rewrite Hother.
  - intros Hstr. destruct proximity; try discriminate; reflexivity.
Qed.

Lemma other_proximity_targets_witness :
  filter_by_proximity (JStr "Window") (JInt 5) ([JInt 1], [])
  = Ok ([JInt 1], ["Note: Proximity filter for 'Window' not specifically implemented in this prototype."])
  /\ filter_by_proximity (JList [JStr "marketing team"]) JNull ([], []) = Raise AttributeError.
Proof.
  split.
  - apply (proj1 (other_proximity_targets (JStr "Window") (JInt 5) [JInt 1] [] eq_refl)
             "Window"); [reflexivity|discriminate].
  - apply (proj2 (other_proximity_targets (JList [JStr "marketing team"]) JNull [] [] eq_refl)).
    reflexivity.
Defined.

End PipelineEdges.

(** ** Criteria normalizer: what the parsed floor is *)

Section NormalizerEdges.

Lemma pow10_succ (n : nat) : 10 ^ Z.of_nat (S n) = 10 * 10 ^ Z.of_nat n.
Proof. rewrite Nat2Z.inj_succ. apply Z.pow_succ_r. lia. Qed.

Lemma decimal_value_acc (acc : Z) (s : string) :
  PyStr.decimal_value acc s
  = acc * 10 ^ Z.of_nat (String.length s) + PyStr.decimal_value 0 s.
Proof.
  revert acc. induction s as [|c s IH]; intros acc.
  - cbn. lia.
  - cbn [PyStr.decimal_value String.length].
    rewrite (IH (10 * acc + PyStr.digit_value c)), (IH (10 * 0 + PyStr.digit_value c)).
    rewrite pow10_succ. lia.
Qed.



Lemma digit_value_nonneg (c : ascii) : PyStr.isdecimal c = true -> 0 <= PyStr.digit_value c.
Proof.
  unfold PyStr.isdecimal, PyStr.digit_value. intros H.
  apply andb_true_iff in H as [H _]. apply N.leb_le in H. lia.
Qed.

Lemma decimal_value_nonneg (acc : Z) (s : string) :
  PyStr.all_chars PyStr.isdecimal s = true -> 0 <= acc -> 0 <= PyStr.decimal_value acc s.
Proof.
  revert acc. induction s as [|c s IH]; intros acc Hs Hacc; [exact Hacc|].
  cbn [PyStr.all_chars] in Hs. apply andb_true_iff in Hs as [Hc Hs].
  cbn [PyStr.decimal_value]. apply IH; [exact Hs|].
  pose proof (digit_value_nonneg c Hc). lia.
Qed.

(** The three outcomes of floor parsing. *)
Lemma parse_floor_cases (v : json) :
  parse_floor v = Ok (None, [])
  \/ (exists n, 0 <= n /\ parse_floor v = Ok (Some n, []))
  \/ parse_floor v = Ok (None, ["Could not parse floor '" ++ py_str v ++ "' as a number."]).
Proof.
  unfold parse_floor. destruct (truthy v); [|now left]. right.
  unfold PyStr.int.
  destruct (PyStr.filter_chars PyStr.isdigit (py_str v)) as [|c digits]; [now right|].
  destruct (PyStr.all_chars PyStr.isdecimal (String c digits)) eqn:Hdecimal; [|now right].
  left. eexists. split; [|reflexivity].
  now apply decimal_value_nonneg.
Qed.

(** X16.  A parsed floor is never negative: a sign in the text is dropped with
    the other non-digit characters. *)
Theorem parsed_floor_is_not_negative (v : json) (n : Z) (warnings : list string) :
  parse_floor v = Ok (Some n, warnings) -> 0 <= n /\ warnings = [].
Proof.
  intros H. destruct (parse_floor_cases v) as [H'|[(n' & Hn & H')|H']];
    rewrite H' in H; try discriminate.
  injection H as <- <-. now split.
Qed.

Lemma parsed_floor_is_not_negative_witness :
  parse_floor (JStr "level -2") = Ok (Some 2, []) /\ 0 <= 2.
Proof.
  split; [reflexivity|].
  apply (parsed_floor_is_not_negative (JStr "level -2") 2 []). reflexivity.
Defined.



Lemma normalize_returns_shape (q : dict) :
  exists (floor : option Z) (warnings : list string),
    normalize (JObj q)
    = Ok (Criteria (dict_get q "desk_type" JNull) (dict_get q "location_proximity" JNull)
            floor (dict_get q "time_request" (JStr "now")), warnings).
Proof.
  unfold normalize. rewrite !py_get_dict. cbn [py_get_default bind].
  destruct (parse_floor_cases (dict_get q "floor" JNull)) as [H|[(n & _ & H)|H]];
    rewrite H; cbn [bind]; eauto.
Qed.

(** X18.  Normalizing a dict never raises: the desk type and the proximity target
    pass through, a missing time request becomes "now", at most one warning
    is issued and none when a floor is parsed. *)
Theorem normalize_returns (q : dict) :
  exists (floor : option Z) (warnings : list string),
    normalize (JObj q)
    = Ok (Criteria (dict_get q "desk_type" JNull) (dict_get q "location_proximity" JNull)
            floor (dict_get q "time_request" (JStr "now")), warnings)
    /\ (length warnings <= 1)%nat
    /\ (floor <> None -> warnings = []).
Proof.
  unfold normalize. rewrite !py_get_dict. cbn [py_get_default bind].
  destruct (parse_floor_cases (dict_get q "floor" JNull)) as [H|[(n & _ & H)|H]];
    rewrite H; cbn [bind]; do 2 eexists; (split; [reflexivity|]);
    cbn [length]; split; try lia; try reflexivity; intros Hf; now destruct Hf.
Qed.

Lemma pretty_N_char_isdigit (d : N) : PyStr.isdecimal (pretty_N_char d) = true.
Proof. unfold pretty_N_char. repeat case_match; reflexivity. Qed.

Lemma pretty_N_char_value (d : N) : (d < 10)%N -> PyStr.digit_value (pretty_N_char d) = Z.of_N d.
Proof.
  intros Hd.
  assert (d = 0 \/ d = 1 \/ d = 2 \/ d = 3 \/ d = 4 \/ d = 5 \/ d = 6 \/ d = 7
          \/ d = 8 \/ d = 9)%N as Hcases by lia.
  repeat (destruct Hcases as [->|Hcases]; [reflexivity|]). now subst d.
Qed.

Lemma pretty_N_go_digits (x : N) (s : string) :
  PyStr.all_chars PyStr.isdecimal s = true ->
  PyStr.all_chars PyStr.isdecimal (pretty_N_go x s) = true.
Proof.
  revert s. induction (N.lt_wf_0 x) as [x _ IH]; intros s Hs.
  assert (x = 0 \/ 0 < x)%N as [->|Hx] by lia; [exact Hs|].
  rewrite pretty_N_go_step by exact Hx. apply IH.
  - now apply N.div_lt.
  - cbn [PyStr.all_chars]. now rewrite pretty_N_char_isdigit.
Qed.

Lemma pretty_N_go_value (x : N) (s : string) :
  PyStr.decimal_value 0 (pretty_N_go x s)
  = Z.of_N x * 10 ^ Z.of_nat (String.length s) + PyStr.decimal_value 0 s.
Proof.
  revert s. induction (N.lt_wf_0 x) as [x _ IH]; intros s.
  assert (x = 0 \/ 0 < x)%N as [->|Hx] by lia.
  { rewrite pretty_N_go_0. change (Z.of_N 0) with 0. lia. }
  rewrite pretty_N_go_step by exact Hx.
  rewrite IH by now apply N.div_lt.
  cbn [String.length PyStr.decimal_value]. rewrite pow10_succ.
  rewrite (decimal_value_acc (10 * 0 + _)).
  rewrite pretty_N_char_value by (apply N.mod_lt; lia).
  pose proof (N.div_mod x 10 ltac:(lia)) as Hdiv.
  rewrite N2Z.inj_div, N2Z.inj_mod.
  assert (Z.of_N x = 10 * (Z.of_N x / 10) + Z.of_N x mod 10) as Hx'
    by (apply Z.div_mod; lia).
  change (Z.of_N 10) with 10. lia.
Qed.

Lemma pretty_N_go_not_empty (x : N) (s : string) :
  s <> EmptyString -> pretty_N_go x s <> EmptyString.
Proof.
  revert s. induction (N.lt_wf_0 x) as [x _ IH]; intros s Hs.
  assert (x = 0 \/ 0 < x)%N as [->|Hx] by lia; [exact Hs|].
  rewrite pretty_N_go_step by exact Hx. apply IH; [now apply N.div_lt|discriminate].
Qed.

Lemma filter_all_digits (s : string) :
  PyStr.all_chars PyStr.isdecimal s = true -> PyStr.filter_chars PyStr.isdigit s = s.
Proof.
  induction s as [|c s IH]; [reflexivity|]. cbn [PyStr.all_chars PyStr.filter_chars].
  intros H. apply andb_true_iff in H as [Hc Hs]. unfold PyStr.isdigit at 1.
  rewrite Hc. cbn [orb]. now rewrite IH.
Qed.

(** The decimal text of a positive number reads back as that number. *)
Lemma pretty_positive_digits (p : positive) :
  PyStr.all_chars PyStr.isdecimal (pretty p) = true
  /\ pretty p <> EmptyString
  /\ PyStr.decimal_value 0 (pretty p) = Z.pos p.
Proof.
  unfold pretty, pretty_positive, pretty, pretty_N.
  destruct (decide (N.pos p = 0%N)) as [Hp|_]; [discriminate|].
  assert (0 < N.pos p)%N as Hpos by lia.
  split; [|split].
  - now apply pretty_N_go_digits.
  - rewrite pretty_N_go_step by exact Hpos. now apply pretty_N_go_not_empty.
  - rewrite pretty_N_go_value. cbn. lia.
Qed.

(** X19.  An integer floor other than 0 is parsed to its absolute value: it is
    printed, its sign is dropped and its digits are read back. *)
Theorem integer_floor_is_absolute_value (n : Z) :
  n <> 0 -> parse_floor (JInt n) = Ok (Some (Z.abs n), []).
Proof.
  intros Hn.
  assert (PyStr.filter_chars PyStr.isdigit (py_str (JInt n)) <> EmptyString
          /\ PyStr.all_chars PyStr.isdecimal
               (PyStr.filter_chars PyStr.isdigit (py_str (JInt n))) = true
          /\ PyStr.decimal_value 0 (PyStr.filter_chars PyStr.isdigit (py_str (JInt n)))
             = Z.abs n) as (Hne & Hdecimal & Hval).
  { cbn [py_str py_repr]. destruct n as [|p|p]; [now destruct Hn| |];
      destruct (pretty_positive_digits p) as (Hd & Hne & Hv).
    - change (pretty (Z.pos p)) with (pretty p). rewrite (filter_all_digits _ Hd).
      now repeat split.
    - change (pretty (Z.neg p)) with (String "-" (pretty p)).
      change (PyStr.filter_chars PyStr.isdigit (String "-" (pretty p)))
        with (PyStr.filter_chars PyStr.isdigit (pretty p)).
      rewrite (filter_all_digits _ Hd). now repeat split. }
  rewrite parse_floor_digits; [now rewrite Hval| |exact Hne|exact Hdecimal].
  destruct n; [now destruct Hn|reflexivity..].
Qed.

Lemma integer_floor_is_absolute_value_witness :
  parse_floor (JInt (-3)) = Ok (Some 3, []).
Proof. apply (integer_floor_is_absolute_value (-3)). discriminate. Defined.

(** X20.  A query without a time request is evaluated as "now"; a query whose
    time request is an explicit null keeps [None], which the evaluator
    rejects as not implemented for every desk that is not under
    maintenance. *)
Theorem time_request_default (q : dict) (c : criteria) (warnings : list string) :
  normalize (JObj q) = Ok (c, warnings) ->
  (assoc "time_request" q = None -> req_time c = JStr "now")
  /\ (assoc "time_request" q = Some JNull ->
      req_time c = JNull
      /\ forall (d : dict) (occupancy_data policies : json),
           dict_get d "status" JNull <> JStr "maintenance" ->
           check_desk_availability (JObj d) (req_time c) occupancy_data policies
           = Ok (false, "Availability check for 'None' not implemented.")).
Proof.
  intros H. destruct (normalize_returns_shape q) as (floor & w & Hq).
  rewrite Hq in H. injection H as <- _. cbn [req_time].
  split; intros Hkey.
  { unfold dict_get. now rewrite Hkey. }
  assert (dict_get q "time_request" (JStr "now") = JNull) as ->
    by (unfold dict_get; now rewrite Hkey).
  split; [reflexivity|].
  intros d occupancy_data policies Hstatus.
  unfold check_desk_availability. rewrite py_get_dict. cbn [bind].
  now rewrite (py_eq_str_false _ _ Hstatus).
Qed.

Lemma time_request_default_witness :
  let q := [("desk_type", JStr "standing"); ("time_request", JNull)] in
  normalize (JObj q) = Ok (Criteria (JStr "standing") JNull None JNull, [])
  /\ check_desk_availability (JObj [("status", JStr "available")]) JNull JNull JNull
     = Ok (false, "Availability check for 'None' not implemented.").
Proof.
  intros q. split; [reflexivity|].
  destruct (time_request_default q (Criteria (JStr "standing") JNull None JNull) [] eq_refl)
    as [_ Hnull].
  destruct (Hnull eq_refl) as [_ Hcheck].
  apply (Hcheck [("status", JStr "available")] JNull JNull). discriminate.
Defined.

End NormalizerEdges.

(** ** Availability stage and recommendation *)

Section AvailabilityStage.

Lemma check_candidates_spec (candidate_desks : list json)
    (req_time occupancy_data policies_data : json)
    (available_desks : list json) (availability_log : list string) :
  check_candidates candidate_desks req_time occupancy_data policies_data
    = Ok (available_desks, availability_log) ->
  available_desks
    = List.filter (is_available_at req_time occupancy_data policies_data) candidate_desks
  /\ length availability_log = length candidate_desks.
Proof.
  revert available_desks availability_log.
  induction candidate_desks as [|desk rest IH]; intros available_desks availability_log H;
    cbn [check_candidates] in H.
  - now injection H as <- <-.
  - apply bind_ok in H as ([is_available reason] & Hcheck & H).
    apply bind_ok in H as (id & _ & H).
    apply bind_ok in H as ([available log] & Hrest & H). injection H as <- <-.
    destruct (IH _ _ Hrest) as [-> Hlen].
    cbn [List.filter length].
    assert (is_available_at req_time occupancy_data policies_data desk = is_available) as ->
      by (unfold is_available_at; now rewrite Hcheck).
    now rewrite Hlen.
Qed.

Lemma check_candidates_all_checked (candidate_desks : list json)
    (req_time occupancy_data policies_data : json)
    (available_desks : list json) (availability_log : list string) :
  check_candidates candidate_desks req_time occupancy_data policies_data
    = Ok (available_desks, availability_log) ->
  forall desk, In desk candidate_desks ->
    exists verdict,
      check_desk_availability desk req_time occupancy_data policies_data = Ok verdict.
Proof.
  revert available_desks availability_log.
  induction candidate_desks as [|x rest IH]; intros available_desks availability_log H desk Hin;
    [destruct Hin|].
  cbn [check_candidates] in H.
  apply bind_ok in H as ([is_available reason] & Hcheck & H).
  apply bind_ok in H as (id & _ & H).
  apply bind_ok in H as ([available log] & Hrest & H).
  destruct Hin as [<-|Hin]; [eauto | eapply IH; eauto].
Qed.

(** X21.  When the loop over the candidates returns, the available desks are a
    subsequence of the candidates and the availability log has one entry
    for each candidate. *)
Theorem available_desks_are_candidates (candidate_desks : list json)
    (req_time occupancy_data policies_data : json)
    (available_desks : list json) (availability_log : list string) :
  check_candidates candidate_desks req_time occupancy_data policies_data
    = Ok (available_desks, availability_log) ->
  available_desks `sublist_of` candidate_desks
  /\ length availability_log = length candidate_desks.
Proof.
  intros H. apply check_candidates_spec in H as [-> Hlen].
  split; [apply filter_sublist | exact Hlen].
Qed.

Lemma available_desks_are_candidates_witness :
  let free := JObj [("id", JStr "D-1"); ("status", JStr "available")] in
  let busy := JObj [("id", JStr "D-2"); ("status", JStr "occupied")] in
  [free; free] `sublist_of` [free; busy; free]
  /\ length ["Desk D-1: Available = True. Reason: Desk is currently available.";
             "Desk D-2: Available = False. Reason: Desk status is currently 'occupied'.";
             "Desk D-1: Available = True. Reason: Desk is currently available."]
     = length [free; busy; free].
Proof.
  intros free busy.
  apply (available_desks_are_candidates [free; busy; free] (JStr "now") JNull JNull).
  reflexivity.
Defined.

Lemma check_now (d : dict) (occupancy_data policies : json) :
  exists reason,
    check_desk_availability (JObj d) (JStr "now") occupancy_data policies
    = Ok (py_eq (dict_get d "status" JNull) (JStr "available"), reason).
Proof.
  unfold check_desk_availability. rewrite py_get_dict. cbn [bind].
  destruct (py_eq (dict_get d "status" JNull) (JStr "maintenance")) eqn:Hm.
  - apply py_eq_str in Hm. rewrite Hm. now eexists.
  - change (py_eq (JStr "now") (JStr "tomorrow afternoon")) with false.
    change (py_eq (JStr "now") (JStr "now")) with true. cbn iota.
    destruct (py_eq (dict_get d "status" JNull) (JStr "available")); now eexists.
Qed.

(** X22.  For the time request "now" the loop returns on every list of dict
    desks, whatever the occupancy and the policies hold, and the available
    desks are the candidates whose status is "available", in order. *)
Theorem now_keeps_available_status (candidate_desks : list json)
    (occupancy_data policies_data : json) :
  forallb is_dict candidate_desks = true ->
  exists availability_log,
    check_candidates candidate_desks (JStr "now") occupancy_data policies_data
    = Ok (List.filter (has_status "available") candidate_desks, availability_log).
Proof.
  induction candidate_desks as [|desk rest IH]; intros Hdicts; [now eexists|].
  cbn [forallb] in Hdicts. apply andb_true_iff in Hdicts as [Hdesk Hrest].
  destruct desk as [| | | | |d]; try discriminate.
  destruct (IH Hrest) as [log Hlog].
  destruct (check_now d occupancy_data policies_data) as [reason Hcheck].
  cbn [check_candidates]. rewrite Hcheck. cbn [bind]. rewrite py_get_dict. cbn [bind].
  rewrite Hlog. cbn [bind List.filter has_status].
  destruct (py_eq (dict_get d "status" JNull) (JStr "available")); now eexists.
Qed.

Lemma now_keeps_available_status_witness :
  let free := JObj [("status", JStr "available")] in
  let broken := JObj [("status", JStr "maintenance")] in
  exists availability_log,
    check_candidates [broken; free; JObj []] (JStr "now") (JInt 1) (JStr "policies")
    = Ok ([free], availability_log).
Proof.
  intros free broken.
  apply (now_keeps_available_status [broken; free; JObj []] (JInt 1) (JStr "policies")).
  reflexivity.
Defined.

Lemma check_returns_for_dicts_only (desk time_request occupancy_data policies : json)
    (verdict : bool * string) :
  check_desk_availability desk time_request occupancy_data policies = Ok verdict ->
  is_dict desk = true.
Proof. destruct desk; try discriminate; reflexivity. Qed.

(** X23.  Whatever the time request, a desk the loop reports available is a dict
    and is not under maintenance. *)
Theorem maintenance_desks_never_available (candidate_desks : list json)
    (req_time occupancy_data policies_data : json)
    (available_desks : list json) (availability_log : list string) :
  check_candidates candidate_desks req_time occupancy_data policies_data
    = Ok (available_desks, availability_log) ->
  forall desk, In desk available_desks ->
    exists d, desk = JObj d /\ dict_get d "status" JNull <> JStr "maintenance".
Proof.
  intros H desk Hin. apply check_candidates_spec in H as [-> _].
  apply List.filter_In in Hin as [_ Havailable]. unfold is_available_at in Havailable.
  destruct (check_desk_availability desk req_time occupancy_data policies_data)
    as [[available reason]|] eqn:Hcheck; [|discriminate].
  subst available.
  pose proof (check_returns_for_dicts_only _ _ _ _ _ Hcheck) as Hdict.
  destruct desk as [| | | | |d]; try discriminate.
  exists d. split; [reflexivity|]. intros Hstatus.
  unfold check_desk_availability in Hcheck. rewrite py_get_dict, Hstatus in Hcheck.
  discriminate.
Qed.

Lemma maintenance_desks_never_available_witness :
  let free := JObj [("status", JStr "available")] in
  let broken := JObj [("status", JStr "maintenance")] in
  exists d, free = JObj d /\ dict_get d "status" JNull <> JStr "maintenance".
Proof.
  intros free broken.
  apply (maintenance_desks_never_available [broken; free] (JStr "now") JNull JNull
           [free]
           ["Desk None: Available = False. Reason: Desk is under maintenance.";
            "Desk None: Available = True. Reason: Desk is currently available."]);
    [reflexivity | now left].
Defined.

Lemma filter_head (p : json -> bool) (l : list json) (d : json) (rest : list json) :
  List.filter p l = d :: rest ->
  exists before after,
    l = (before ++ d :: after)%list
    /\ p d = true
    /\ forall x, In x before -> p x = false.
Proof.
  induction l as [|x l IH]; [discriminate|]. cbn [List.filter].
  destruct (p x) eqn:Hx.
  - intros [= -> _]. exists [], l. split; [reflexivity|]. split; [exact Hx|]. intros y [].
  - intros H. destruct (IH H) as (before & after & -> & Hd & Hbefore).
    exists (x :: before), after. split; [reflexivity|]. split; [exact Hd|].
    intros y [<-|Hy]; [exact Hx | now apply Hbefore].
Qed.

(** X24.  The top recommendation is the first candidate, in input order, that the
    evaluator reports available: every candidate before it was evaluated
    and found unavailable. *)
Theorem top_recommendation_is_first_available (candidate_desks : list json)
    (req_time occupancy_data policies_data : json)
    (available_desks : list json) (availability_log : list string) (top : json) :
  availability_stage candidate_desks req_time occupancy_data policies_data
    = Ok (available_desks, availability_log) ->
  top_recommendation available_desks = Some top ->
  exists before after reason,
    candidate_desks = (before ++ top :: after)%list
    /\ check_desk_availability top req_time occupancy_data policies_data = Ok (true, reason)
    /\ forall desk, In desk before ->
         exists why,
           check_desk_availability desk req_time occupancy_data policies_data
           = Ok (false, why).
Proof.
  intros Hstage Htop.
  destruct available_desks as [|first others]; [discriminate|]. injection Htop as ->.
  assert (check_candidates candidate_desks req_time occupancy_data policies_data
          = Ok (top :: others, availability_log)) as Hloop.
  { unfold availability_stage in Hstage.
    destruct candidate_desks; [discriminate|].
    destruct (is_none occupancy_data || is_none policies_data); [discriminate|exact Hstage]. }
  pose proof (check_candidates_all_checked _ _ _ _ _ _ Hloop) as Hchecked.
  apply check_candidates_spec in Hloop as [Hfilter _]. symmetry in Hfilter.
  apply filter_head in Hfilter as (before & after & -> & Htop & Hbefore).
  unfold is_available_at in Htop.
  destruct (check_desk_availability top req_time occupancy_data policies_data)
    as [[available reason]|] eqn:Hcheck; [|discriminate]. subst available.
  exists before, after, reason. split; [reflexivity|]. split; [reflexivity|].
  intros desk Hdesk.
  destruct (Hchecked desk) as [[available why] Hwhy]; [apply in_or_app; now left|].
  specialize (Hbefore desk Hdesk). unfold is_available_at in Hbefore.
  rewrite Hwhy in Hbefore. subst available. now exists why.
Qed.

Lemma top_recommendation_is_first_available_witness :
  let busy := JObj [("id", JStr "D-1"); ("status", JStr "occupied")] in
  let free := JObj [("id", JStr "D-2"); ("status", JStr "available")] in
  let spare := JObj [("id", JStr "D-3"); ("status", JStr "available")] in
  top_recommendation [free; spare] = Some free
  /\ exists before after reason,
       [busy; free; spare] = (before ++ free :: after)%list
       /\ check_desk_availability free (JStr "now") (JObj []) (JObj []) = Ok (true, reason)
       /\ forall desk, In desk before ->
            exists why,
              check_desk_availability desk (JStr "now") (JObj []) (JObj []) = Ok (false, why).
Proof.
  intros busy free spare. split; [reflexivity|].
  apply (top_recommendation_is_first_available [busy; free; spare] (JStr "now")
           (JObj []) (JObj []) [free; spare]
           ["Desk D-1: Available = False. Reason: Desk status is currently 'occupied'.";
            "Desk D-2: Available = True. Reason: Desk is currently available.";
            "Desk D-3: Available = True. Reason: Desk is currently available."]);
    reflexivity.
Defined.

Lemma check_unsupported (d : dict) (time_request occupancy_data policies : json) :
  time_request <> JStr "tomorrow afternoon" ->
  time_request <> JStr "now" ->
  exists reason,
    check_desk_availability (JObj d) time_request occupancy_data policies = Ok (false, reason).
Proof.
  intros Hta Hnow. unfold check_desk_availability. rewrite py_get_dict. cbn [bind].
  destruct (py_eq (dict_get d "status" JNull) (JStr "maintenance")); [now eexists|].
  rewrite !py_eq_str_false by assumption. now eexists.
Qed.

(** X25.  With a time request the evaluator does not handle, the loop returns on
    every list of dict desks, reports no desk available and logs one entry
    for each candidate. *)
Theorem unsupported_time_gives_no_desk (candidate_desks : list json)
    (req_time occupancy_data policies_data : json) :
  req_time <> JStr "tomorrow afternoon" ->
  req_time <> JStr "now" ->
  forallb is_dict candidate_desks = true ->
  exists availability_log,
    check_candidates candidate_desks req_time occupancy_data policies_data
    = Ok ([], availability_log)
    /\ length availability_log = length candidate_desks.
Proof.
  intros Hta Hnow. induction candidate_desks as [|desk rest IH]; intros Hdicts.
  - now exists [].
  - cbn [forallb] in Hdicts. apply andb_true_iff in Hdicts as [Hdesk Hrest].
    destruct desk as [| | | | |d]; try discriminate.
    destruct (IH Hrest) as (log & Hlog & Hlen).
    destruct (check_unsupported d req_time occupancy_data policies_data Hta Hnow)
      as [reason Hcheck].
    cbn [check_candidates]. rewrite Hcheck. cbn [bind]. rewrite py_get_dict. cbn [bind].
    rewrite Hlog. cbn [bind]. eexists. split; [reflexivity|]. cbn [length]. now rewrite Hlen.
Qed.

Lemma unsupported_time_gives_no_desk_witness :
  exists availability_log,
    check_candidates [JObj [("id", JStr "D-1"); ("status", JStr "available")]]
      (JStr "tomorrow morning") JNull JNull
    = Ok ([], availability_log)
    /\ length availability_log
       = length [JObj [("id", JStr "D-1"); ("status", JStr "available")]].
Proof.
  apply (unsupported_time_gives_no_desk
           [JObj [("id", JStr "D-1"); ("status", JStr "available")]]
           (JStr "tomorrow morning") JNull JNull); [discriminate|discriminate|reflexivity].
Defined.

End AvailabilityStage.
